(** * ST7789 display driver (examples/rp2040-st7789): model and properties

    The driver of [st7789.cpp] talks to the panel through the Pico SDK only:
    it sets GPIO levels, writes bytes on an SPI peripheral and sleeps.  None
    of these calls returns anything the driver looks at, so a run of a driver
    method is described completely by

    - the display object it ran on (the six private members), and
    - the chronological list of SDK calls it made.

    Methods are embedded as computations in a small monad that threads the
    object and accumulates the calls. *)

From Stdlib Require Import ZArith List Bool Lia.
From Stdlib Require String Ascii.
Import ListNotations.
Import String.StringSyntax.

Local Open Scope Z_scope.

(** ** Fixed-width integers

    [uint8_t], [uint16_t] and [uint32_t] values are integers in [Z]; a
    conversion to one of these types reduces modulo the width.  [int] is 32
    bits wide on the RP2040: the sums and differences of [uint16_t] operands
    the driver computes in [int] stay within (-2^16, 2^17) and are therefore
    written as exact [Z] arithmetic. *)

Definition u8 (v : Z) : Z := v mod 2 ^ 8.
Definition u16 (v : Z) : Z := v mod 2 ^ 16.
Definition u32 (v : Z) : Z := v mod 2 ^ 32.

Definition is_u16 (v : Z) : Prop := 0 <= v < 2 ^ 16.

(** ** st7789.h: constants *)

Definition ST7789_SWRESET : Z := 0x01.
Definition ST7789_SLPOUT : Z := 0x11.
Definition ST7789_COLMOD : Z := 0x3A.
Definition ST7789_MADCTL : Z := 0x36.
Definition ST7789_CASET : Z := 0x2A.
Definition ST7789_RASET : Z := 0x2B.
Definition ST7789_RAMWR : Z := 0x2C.
Definition ST7789_DISPON : Z := 0x29.
Definition ST7789_INVON : Z := 0x21.
Definition ST7789_INVOFF : Z := 0x20.

Definition SCREEN_WIDTH : Z := 240.
Definition SCREEN_HEIGHT : Z := 320.

Definition COLOR_BLACK : Z := 0x0000.
Definition COLOR_WHITE : Z := 0xFFFF.
Definition COLOR_RED : Z := 0xF800.
Definition COLOR_GREEN : Z := 0x07E0.
Definition COLOR_BLUE : Z := 0x001F.

(** ** The platform interface

    The SDK entry points the driver calls, as the events of a run. *)

(** The two SPI blocks of the RP2040 ([spi_inst_t*] is [spi0] or [spi1]). *)
Inductive spi_inst_t : Type := spi0 | spi1.

(** The only pin function the driver selects. *)
Inductive gpio_function : Type := GPIO_FUNC_SPI.

Definition GPIO_OUT : bool := true.

Inductive event : Type :=
| Ev_spi_init (spi : spi_inst_t) (baudrate : Z)
| Ev_gpio_set_function (gpio : Z) (fn : gpio_function)
| Ev_gpio_init (gpio : Z)
| Ev_gpio_set_dir (gpio : Z) (out : bool)
| Ev_gpio_put (gpio : Z) (value : bool)
| Ev_spi_write_blocking (spi : spi_inst_t) (src : list Z)
| Ev_sleep_ms (ms : Z).

(** ** The display object: the private members of [class ST7789] *)

Record ST7789 : Type := mkST7789 {
  _spi : spi_inst_t;
  _cs : Z;
  _dc : Z;
  _rst : Z;
  _sck : Z;
  _mosi : Z
}.

(** ** The method monad: state over the object, writer over the events *)

Definition M (A : Type) : Type := ST7789 -> A * ST7789 * list event.

Definition ret {A : Type} (a : A) : M A := fun this => (a, this, []).

Definition bind {A B : Type} (m : M A) (k : A -> M B) : M B :=
  fun this =>
    let r1 := m this in
    let r2 := k (fst (fst r1)) (snd (fst r1)) in
    (fst (fst r2), snd (fst r2), snd r1 ++ snd r2).

Declare Scope method_scope.
Delimit Scope method_scope with method.
Notation "x <- m ;; k" := (bind m (fun x => k))
  (at level 61, m at next level, right associativity) : method_scope.
Notation "m ;; k" := (bind m (fun _ => k))
  (at level 61, right associativity) : method_scope.
Local Open Scope method_scope.

(** Reading a member of [this]. *)
Definition member {A : Type} (field : ST7789 -> A) : M A :=
  fun this => (field this, this, []).

Definition call (e : event) : M unit := fun this => (tt, this, [e]).

Definition spi_init (spi : spi_inst_t) (baudrate : Z) : M unit :=
  call (Ev_spi_init spi baudrate).
Definition gpio_set_function (gpio : Z) (fn : gpio_function) : M unit :=
  call (Ev_gpio_set_function gpio fn).
Definition gpio_init (gpio : Z) : M unit := call (Ev_gpio_init gpio).
Definition gpio_set_dir (gpio : Z) (out : bool) : M unit :=
  call (Ev_gpio_set_dir gpio out).
Definition gpio_put (gpio : Z) (value : bool) : M unit :=
  call (Ev_gpio_put gpio value).
Definition spi_write_blocking (spi : spi_inst_t) (src : list Z) : M unit :=
  call (Ev_spi_write_blocking spi src).
Definition sleep_ms (ms : Z) : M unit := call (Ev_sleep_ms ms).

(** What a run leaves behind. *)
Definition events {A : Type} (m : M A) (this : ST7789) : list event :=
  snd (m this).
Definition object_after {A : Type} (m : M A) (this : ST7789) : ST7789 :=
  snd (fst (m this)).

(** [for (uint32_t i = start; i < bound; i++) body]: the body runs once for
    each [i] of [start .. bound-1]; with [bound < 2^32] the increment never
    wraps before the test fails. *)
Fixpoint for_upto (n : nat) (i : Z) (body : Z -> M unit) : M unit :=
  match n with
  | O => ret tt
  | S n' => body i ;; for_upto n' (i + 1) body
  end.

Definition for_loop (start bound : Z) (body : Z -> M unit) : M unit :=
  for_upto (Z.to_nat (bound - start)) start body.

(** ** st7789.cpp *)

Definition ST7789_new (spi : spi_inst_t) (cs dc rst sck mosi : Z) : ST7789 :=
  {| _spi := spi; _cs := cs; _dc := dc; _rst := rst;
     _sck := sck; _mosi := mosi |}.

Definition writeCommand (cmd : Z) : M unit :=
  dc <- member _dc ;; gpio_put dc false ;;
  cs <- member _cs ;; gpio_put cs false ;;
  spi <- member _spi ;; spi_write_blocking spi [cmd] ;;
  cs <- member _cs ;; gpio_put cs true.

Definition writeData (data : Z) : M unit :=
  dc <- member _dc ;; gpio_put dc true ;;
  cs <- member _cs ;; gpio_put cs false ;;
  spi <- member _spi ;; spi_write_blocking spi [data] ;;
  cs <- member _cs ;; gpio_put cs true.

Definition writeDataBuf (buf : list Z) : M unit :=
  dc <- member _dc ;; gpio_put dc true ;;
  cs <- member _cs ;; gpio_put cs false ;;
  spi <- member _spi ;; spi_write_blocking spi buf ;;
  cs <- member _cs ;; gpio_put cs true.

Definition setWindow (x0 y0 x1 y1 : Z) : M unit :=
  writeCommand ST7789_CASET ;;
  writeData (u8 (Z.shiftr x0 8)) ;;
  writeData (u8 (Z.land x0 0xFF)) ;;
  writeData (u8 (Z.shiftr x1 8)) ;;
  writeData (u8 (Z.land x1 0xFF)) ;;
  writeCommand ST7789_RASET ;;
  writeData (u8 (Z.shiftr y0 8)) ;;
  writeData (u8 (Z.land y0 0xFF)) ;;
  writeData (u8 (Z.shiftr y1 8)) ;;
  writeData (u8 (Z.land y1 0xFF)) ;;
  writeCommand ST7789_RAMWR.

Definition init (baudrate : Z) : M unit :=
  spi <- member _spi ;; spi_init spi baudrate ;;
  sck <- member _sck ;; gpio_set_function sck GPIO_FUNC_SPI ;;
  mosi <- member _mosi ;; gpio_set_function mosi GPIO_FUNC_SPI ;;
  cs <- member _cs ;; gpio_init cs ;;
  dc <- member _dc ;; gpio_init dc ;;
  rst <- member _rst ;; gpio_init rst ;;
  cs <- member _cs ;; gpio_set_dir cs GPIO_OUT ;;
  dc <- member _dc ;; gpio_set_dir dc GPIO_OUT ;;
  rst <- member _rst ;; gpio_set_dir rst GPIO_OUT ;;
  rst <- member _rst ;; gpio_put rst true ;;
  sleep_ms 100 ;;
  rst <- member _rst ;; gpio_put rst false ;;
  sleep_ms 100 ;;
  rst <- member _rst ;; gpio_put rst true ;;
  sleep_ms 100 ;;
  writeCommand ST7789_SWRESET ;;
  sleep_ms 150 ;;
  writeCommand ST7789_SLPOUT ;;
  sleep_ms 120 ;;
  writeCommand ST7789_COLMOD ;;
  writeData 0x55 ;;
  writeCommand ST7789_MADCTL ;;
  writeData 0x00 ;;
  writeCommand ST7789_INVOFF ;;
  writeCommand ST7789_DISPON ;;
  sleep_ms 100.

Definition fillRect (x y w h color : Z) : M unit :=
  if (x >=? SCREEN_WIDTH) || (y >=? SCREEN_HEIGHT) then ret tt
  else
    let w := if x + w >? SCREEN_WIDTH then u16 (SCREEN_WIDTH - x) else w in
    let h := if y + h >? SCREEN_HEIGHT then u16 (SCREEN_HEIGHT - y) else h in
    let colorBuf := [u8 (Z.shiftr color 8); u8 (Z.land color 0xFF)] in
    setWindow x y (u16 (x + w - 1)) (u16 (y + h - 1)) ;;
    dc <- member _dc ;; gpio_put dc true ;;
    cs <- member _cs ;; gpio_put cs false ;;
    for_loop 0 (u32 (w * h))
      (fun _ => spi <- member _spi ;; spi_write_blocking spi colorBuf) ;;
    cs <- member _cs ;; gpio_put cs true.

Definition fillScreen (color : Z) : M unit :=
  fillRect 0 0 SCREEN_WIDTH SCREEN_HEIGHT color.

Definition drawPixel (x y color : Z) : M unit :=
  if (x >=? SCREEN_WIDTH) || (y >=? SCREEN_HEIGHT) then ret tt
  else
    let colorBuf := [u8 (Z.shiftr color 8); u8 (Z.land color 0xFF)] in
    setWindow x y x y ;;
    writeDataBuf colorBuf.

(** main.cpp: the pin assignment and object of the demo program. *)
Definition PIN_CS : Z := 17.
Definition PIN_DC : Z := 16.
Definition PIN_RST : Z := 20.
Definition PIN_SCK : Z := 18.
Definition PIN_MOSI : Z := 19.
Definition SPI_PORT : spi_inst_t := spi0.
Definition SPI_BAUDRATE : Z := 32 * 1000 * 1000.

Definition display : ST7789 :=
  ST7789_new SPI_PORT PIN_CS PIN_DC PIN_RST PIN_SCK PIN_MOSI.

(** ** Reading a trace

    The vocabulary the properties below are stated in. *)

(** One chip-select framed transfer: data/command level first, chip-select
    low, the bytes in a single SPI write, chip-select high. *)
Definition frame (this : ST7789) (dc_level : bool) (bytes : list Z)
  : list event :=
  [ Ev_gpio_put (_dc this) dc_level;
    Ev_gpio_put (_cs this) false;
    Ev_spi_write_blocking (_spi this) bytes;
    Ev_gpio_put (_cs this) true ].

Definition command_frame (this : ST7789) (cmd : Z) : list event :=
  frame this false [cmd].
Definition data_frame (this : ST7789) (bytes : list Z) : list event :=
  frame this true bytes.

(** The pixel stream of [fillRect]: one chip-select window around [n] SPI
    writes of the same buffer. *)
Definition pixel_stream (this : ST7789) (buf : list Z) (n : nat)
  : list event :=
  [ Ev_gpio_put (_dc this) true; Ev_gpio_put (_cs this) false ]
  ++ repeat (Ev_spi_write_blocking (_spi this) buf) n
  ++ [ Ev_gpio_put (_cs this) true ].

(** The byte strings handed to the SPI peripheral, in order. *)
Fixpoint spi_payloads (tr : list event) : list (list Z) :=
  match tr with
  | [] => []
  | Ev_spi_write_blocking _ src :: tr' => src :: spi_payloads tr'
  | _ :: tr' => spi_payloads tr'
  end.

(** Number of two-byte SPI writes (one per pixel). *)
Fixpoint pixel_writes (tr : list event) : nat :=
  match tr with
  | [] => O
  | Ev_spi_write_blocking _ [_; _] :: tr' => S (pixel_writes tr')
  | _ :: tr' => pixel_writes tr'
  end.

(** What the controller sees: every SPI write is a command or data according
    to the level of the data/command pin at the time of the write. *)
Inductive wire_item : Type :=
| Wire_command (bytes : list Z)
| Wire_data (bytes : list Z).

Fixpoint wire_view (dc_pin : Z) (dc_level : bool) (tr : list event)
  : list wire_item :=
  match tr with
  | [] => []
  | Ev_gpio_put pin v :: tr' =>
      wire_view dc_pin (if pin =? dc_pin then v else dc_level) tr'
  | Ev_spi_write_blocking _ src :: tr' =>
      (if dc_level then Wire_data src else Wire_command src)
        :: wire_view dc_pin dc_level tr'
  | _ :: tr' => wire_view dc_pin dc_level tr'
  end.

(** A schedule fixes every event of a trace except that a delay slot only
    bounds the requested sleep from below. *)
Inductive slot : Type :=
| Exactly (e : event)
| Delay_at_least (ms : Z).

Fixpoint follows (sched : list slot) (tr : list event) : Prop :=
  match sched, tr with
  | [], [] => True
  | Exactly e :: sched', e' :: tr' => e' = e /\ follows sched' tr'
  | Delay_at_least ms :: sched', Ev_sleep_ms d :: tr' =>
      ms <= d /\ follows sched' tr'
  | _, _ => False
  end.

Definition exactly (tr : list event) : list slot := map Exactly tr.

(** Pin and peripheral set-up at the start of [init]. *)
Definition init_setup (this : ST7789) (baudrate : Z) : list event :=
  [ Ev_spi_init (_spi this) baudrate;
    Ev_gpio_set_function (_sck this) GPIO_FUNC_SPI;
    Ev_gpio_set_function (_mosi this) GPIO_FUNC_SPI;
    Ev_gpio_init (_cs this);
    Ev_gpio_init (_dc this);
    Ev_gpio_init (_rst this);
    Ev_gpio_set_dir (_cs this) true;
    Ev_gpio_set_dir (_dc this) true;
    Ev_gpio_set_dir (_rst this) true ].

(** The reset and power-up timing of section 4.2 of the specification. *)
Definition init_schedule (this : ST7789) (baudrate : Z) : list slot :=
  exactly (init_setup this baudrate)
  ++ [ Exactly (Ev_gpio_put (_rst this) true); Delay_at_least 100;
       Exactly (Ev_gpio_put (_rst this) false); Delay_at_least 100;
       Exactly (Ev_gpio_put (_rst this) true); Delay_at_least 100 ]
  ++ exactly (command_frame this 0x01) ++ [ Delay_at_least 150 ]
  ++ exactly (command_frame this 0x11) ++ [ Delay_at_least 120 ]
  ++ exactly (command_frame this 0x3A) ++ exactly (data_frame this [0x55])
  ++ exactly (command_frame this 0x36) ++ exactly (data_frame this [0x00])
  ++ exactly (command_frame this 0x20)
  ++ exactly (command_frame this 0x29) ++ [ Delay_at_least 100 ].

(** The clipping rule in the words of the specification: an extent that
    would cross the limit is replaced by the distance to the limit. *)
Definition clipped (origin extent limit : Z) : Z :=
  if origin + extent >? limit then limit - origin else extent.

(** A method leaves the object as it found it. *)
Definition preserves_object {A : Type} (m : M A) : Prop :=
  forall this, object_after m this = this.

(** Chip-select and data/command are wired to two different pins, as the
    controller requires. *)
Definition distinct_control_pins (this : ST7789) : Prop :=
  _cs this <> _dc this.

(** ** Further readings of a trace *)

(** Chip-select discipline: following the level of the chip-select pin
    through the [gpio_put] calls, every SPI write is made while chip-select
    is low, and chip-select is high when the trace ends.  [level] is the
    level before the first event. *)
Fixpoint cs_framed (cs_pin : Z) (level : bool) (tr : list event) : bool :=
  match tr with
  | [] => level
  | Ev_gpio_put pin v :: tr' =>
      cs_framed cs_pin (if pin =? cs_pin then v else level) tr'
  | Ev_spi_write_blocking _ _ :: tr' =>
      negb level && cs_framed cs_pin level tr'
  | _ :: tr' => cs_framed cs_pin level tr'
  end.

(** The level last driven on a pin by [gpio_put] ([acc] when the trace has
    no such call). *)
Fixpoint last_put (pin : Z) (acc : option bool) (tr : list event)
  : option bool :=
  match tr with
  | [] => acc
  | Ev_gpio_put p v :: tr' =>
      last_put pin (if p =? pin then Some v else acc) tr'
  | _ :: tr' => last_put pin acc tr'
  end.

(** The SDK calls of the transport layer: a level on chip-select or
    data/command, or a write on the object's SPI peripheral. *)
Definition transport_event (this : ST7789) (e : event) : Prop :=
  match e with
  | Ev_gpio_put pin _ => pin = _cs this \/ pin = _dc this
  | Ev_spi_write_blocking spi _ => spi = _spi this
  | _ => False
  end.

(** Number of bytes handed to the SPI peripheral. *)
Definition bytes_sent (tr : list event) : nat :=
  length (concat (spi_payloads tr)).

(** The receiving side of "2 bytes (16-bit big-endian)". *)
Definition be16 (hi lo : Z) : Z := Z.lor (Z.shiftl hi 8) lo.

(** Reading back the address window from the eleven one-byte transfers of
    [setWindow]: [(x0, y0, x1, y1)]. *)
Definition decode_window (payloads : list (list Z))
  : option (Z * Z * Z * Z) :=
  match payloads with
  | [caset] :: [xs_hi] :: [xs_lo] :: [xe_hi] :: [xe_lo]
    :: [raset] :: [ys_hi] :: [ys_lo] :: [ye_hi] :: [ye_lo]
    :: [ramwr] :: _ =>
      if (caset =? ST7789_CASET) && (raset =? ST7789_RASET)
         && (ramwr =? ST7789_RAMWR)
      then Some (be16 xs_hi xs_lo, be16 ys_hi ys_lo,
                 be16 xe_hi xe_lo, be16 ye_hi ye_lo)
      else None
  | _ => None
  end.

(** Reading back the colours of the two-byte pixel transfers that follow the
    window. *)
Fixpoint decode_pixels (payloads : list (list Z)) : list Z :=
  match payloads with
  | [hi; lo] :: rest => be16 hi lo :: decode_pixels rest
  | _ => []
  end.

(** ** main.cpp: the demo program *)

Definition COLOR_YELLOW : Z := 0xFFE0.
Definition COLOR_MAGENTA : Z := 0xF81F.
Definition COLOR_CYAN : Z := 0x07FF.
Definition COLOR_ORANGE : Z := 0xFD20.

(** What [main] does besides driving the display: it initialises stdio,
    prints, and calls the SDK (through the driver or directly). *)
Inductive main_event : Type :=
| Ev_stdio_init_all
| Ev_printf (format : String.string) (args : list Z)
| Ev_sdk (e : event).

Definition newline : String.string :=
  String.String (Ascii.ascii_of_nat 10) String.EmptyString.

Definition colors : list Z :=
  [ COLOR_RED; COLOR_GREEN; COLOR_BLUE; COLOR_YELLOW;
    COLOR_MAGENTA; COLOR_CYAN; COLOR_WHITE; COLOR_ORANGE ].

(** [sizeof(colors) / sizeof(colors[0])] *)
Definition numColors : Z := Z.of_nat (length colors).

(** The part of [main] before the loop: the local object and the calls made
    up to the first iteration. *)
Definition main_startup : ST7789 * list main_event :=
  let d := ST7789_new SPI_PORT PIN_CS PIN_DC PIN_RST PIN_SCK PIN_MOSI in
  (object_after (init SPI_BAUDRATE) d,
   [ Ev_stdio_init_all;
     Ev_printf (String.append "ST7789 Display Example Starting..." newline)
       [];
     Ev_printf
       (String.append "Hardware: Raspberry Pi Pico + ST7789 LCD" newline) []
   ]
   ++ map Ev_sdk (events (init SPI_BAUDRATE) d)
   ++ [ Ev_printf
          (String.append "Display initialized! (%dx%d pixels)" newline)
          [SCREEN_WIDTH; SCREEN_HEIGHT];
        Ev_printf (String.append "SPI baudrate: %d Hz" newline)
          [SPI_BAUDRATE] ]).

(** One turn of [while (true)]: the array is read at [colorIndex] (reading
    outside of it is undefined in C++ and gives 0 here), and [%] is the
    truncating remainder of [int]. *)
Definition main_loop_body (d : ST7789) (colorIndex : Z)
  : Z * ST7789 * list main_event :=
  let color := nth (Z.to_nat colorIndex) colors 0 in
  (Z.rem (colorIndex + 1) numColors,
   object_after (fillScreen color) d,
   map Ev_sdk (events (fillScreen color) d)
   ++ [ Ev_printf (String.append "Displaying color: 0x%04X" newline) [color];
        Ev_sdk (Ev_sleep_ms 1000) ]).

(** The loop never ends; [main_loop n] is its first [n] turns. *)
Fixpoint main_loop (n : nat) (d : ST7789) (colorIndex : Z)
  : Z * ST7789 * list main_event :=
  match n with
  | O => (colorIndex, d, [])
  | S n' =>
      let r := main_loop_body d colorIndex in
      let r' := main_loop n' (snd (fst r)) (fst (fst r)) in
      (fst (fst r'), snd (fst r'), snd r ++ snd r')
  end.

(** [main] up to the end of the [n]-th turn of its loop. *)
Definition main (n : nat) : Z * ST7789 * list main_event :=
  let s := main_startup in
  let r := main_loop n (fst s) 0 in
  (fst (fst r), snd (fst r), snd s ++ snd r).

(** The SDK calls among the events of [main]. *)
Fixpoint sdk_calls (tr : list main_event) : list event :=
  match tr with
  | [] => []
  | Ev_sdk e :: tr' => e :: sdk_calls tr'
  | _ :: tr' => sdk_calls tr'
  end.

(** The colours [main] prints, in order (the argument of each
    "Displaying color" line). *)
Fixpoint displayed_colors (tr : list main_event) : list Z :=
  match tr with
  | [] => []
  | Ev_printf format [color] :: tr' =>
      if String.eqb format
           (String.append "Displaying color: 0x%04X" newline)
      then color :: displayed_colors tr'
      else displayed_colors tr'
  | _ :: tr' => displayed_colors tr'
  end.

(** ** Basic facts *)

Arguments u8 : simpl never.
Arguments u16 : simpl never.
Arguments u32 : simpl never.

Lemma u8_small (v : Z) : 0 <= v < 256 -> u8 v = v.
Proof. intros Hv. unfold u8. apply Z.mod_small. lia. Qed.

Lemma u16_small (v : Z) : 0 <= v < 65536 -> u16 v = v.
Proof. intros Hv. unfold u16. apply Z.mod_small. lia. Qed.

Lemma u32_small (v : Z) : 0 <= v < 4294967296 -> u32 v = v.
Proof. intros Hv. unfold u32. apply Z.mod_small. lia. Qed.

Lemma high_byte_range (v : Z) : is_u16 v -> 0 <= Z.shiftr v 8 < 256.
Proof.
  unfold is_u16. intros Hv. rewrite Z.shiftr_div_pow2 by lia.
  change (2 ^ 8) with 256. change (2 ^ 16) with (256 * 256) in Hv.
  split.
  - apply Z.div_pos; lia.
  - apply Z.div_lt_upper_bound; lia.
Qed.

Lemma low_byte_range (v : Z) : 0 <= Z.land v 0xFF < 256.
Proof.
  change 0xFF with (Z.ones 8). rewrite Z.land_ones by lia.
  change (2 ^ 8) with 256. apply Z.mod_pos_bound. lia.
Qed.

Lemma u8_high_byte (v : Z) : is_u16 v -> u8 (Z.shiftr v 8) = Z.shiftr v 8.
Proof. intros Hv. apply u8_small, high_byte_range, Hv. Qed.

Lemma u8_low_byte (v : Z) : u8 (Z.land v 0xFF) = Z.land v 0xFF.
Proof. apply u8_small, low_byte_range. Qed.

(** *** The monad *)

Lemma events_bind {A B : Type} (m : M A) (k : A -> M B) (this : ST7789) :
  events (bind m k) this
  = events m this ++ events (k (fst (fst (m this)))) (object_after m this).
Proof. reflexivity. Qed.

Lemma object_after_bind {A B : Type} (m : M A) (k : A -> M B) this :
  object_after (bind m k) this
  = object_after (k (fst (fst (m this)))) (object_after m this).
Proof. reflexivity. Qed.

Lemma preserves_ret {A : Type} (a : A) : preserves_object (ret a).
Proof. intros this. reflexivity. Qed.

Lemma preserves_member {A : Type} (field : ST7789 -> A) :
  preserves_object (member field).
Proof. intros this. reflexivity. Qed.

Lemma preserves_call (e : event) : preserves_object (call e).
Proof. intros this. reflexivity. Qed.

Lemma preserves_bind {A B : Type} (m : M A) (k : A -> M B) :
  preserves_object m -> (forall a, preserves_object (k a)) ->
  preserves_object (bind m k).
Proof.
  intros Hm Hk this. rewrite object_after_bind, Hm. apply Hk.
Qed.

Lemma preserves_for_upto (n : nat) (body : Z -> M unit) :
  (forall i, preserves_object (body i)) ->
  forall i, preserves_object (for_upto n i body).
Proof.
  intros Hbody. induction n as [|n IH]; intros i; simpl.
  - apply preserves_ret.
  - apply preserves_bind; [apply Hbody | intros _; apply IH].
Qed.

Lemma preserves_for_loop (start bound : Z) (body : Z -> M unit) :
  (forall i, preserves_object (body i)) ->
  preserves_object (for_loop start bound body).
Proof. intros Hbody. apply preserves_for_upto, Hbody. Qed.

Lemma preserves_if {A : Type} (c : bool) (m1 m2 : M A) :
  preserves_object m1 -> preserves_object m2 ->
  preserves_object (if c then m1 else m2).
Proof. destruct c; auto. Qed.

(** Syntax-directed search for [preserves_object]: the shape of the method
    picks the rule. *)
Ltac frame_step :=
  lazymatch goal with
  | |- preserves_object (bind _ _) => apply preserves_bind; [ | intros ? ]
  | |- preserves_object (ret _) => apply preserves_ret
  | |- preserves_object (member _) => apply preserves_member
  | |- preserves_object (call _) => apply preserves_call
  | |- preserves_object (for_loop _ _ _) => apply preserves_for_loop; intros ?
  | |- preserves_object (if _ then _ else _) => apply preserves_if
  | |- preserves_object (spi_init _ _) => apply preserves_call
  | |- preserves_object (gpio_set_function _ _) => apply preserves_call
  | |- preserves_object (gpio_init _) => apply preserves_call
  | |- preserves_object (gpio_set_dir _ _) => apply preserves_call
  | |- preserves_object (gpio_put _ _) => apply preserves_call
  | |- preserves_object (spi_write_blocking _ _) => apply preserves_call
  | |- preserves_object (sleep_ms _) => apply preserves_call
  | |- preserves_object _ => solve [ auto with frame ]
  end.

Ltac frame := cbv zeta; repeat frame_step.

Create HintDb frame.

Lemma preserves_writeCommand (cmd : Z) : preserves_object (writeCommand cmd).
Proof. unfold writeCommand. frame. Qed.

Lemma preserves_writeData (data : Z) : preserves_object (writeData data).
Proof. unfold writeData. frame. Qed.

Lemma preserves_writeDataBuf (buf : list Z) :
  preserves_object (writeDataBuf buf).
Proof. unfold writeDataBuf. frame. Qed.

#[local] Hint Resolve preserves_writeCommand preserves_writeData
  preserves_writeDataBuf : frame.

Lemma preserves_setWindow (x0 y0 x1 y1 : Z) :
  preserves_object (setWindow x0 y0 x1 y1).
Proof. unfold setWindow. frame. Qed.

#[local] Hint Resolve preserves_setWindow : frame.

Lemma preserves_init (baudrate : Z) : preserves_object (init baudrate).
Proof. unfold init. frame. Qed.

Lemma preserves_fillRect (x y w h color : Z) :
  preserves_object (fillRect x y w h color).
Proof. unfold fillRect. frame. Qed.

Lemma preserves_fillScreen (color : Z) : preserves_object (fillScreen color).
Proof. apply preserves_fillRect. Qed.

Lemma preserves_drawPixel (x y color : Z) :
  preserves_object (drawPixel x y color).
Proof. unfold drawPixel. frame. Qed.

(** *** Traces of the transport routines *)

Lemma writeCommand_events (this : ST7789) (cmd : Z) :
  events (writeCommand cmd) this = command_frame this cmd.
Proof. reflexivity. Qed.

Lemma writeData_events (this : ST7789) (data : Z) :
  events (writeData data) this = data_frame this [data].
Proof. reflexivity. Qed.

Lemma writeDataBuf_events (this : ST7789) (buf : list Z) :
  events (writeDataBuf buf) this = data_frame this buf.
Proof. reflexivity. Qed.

Lemma setWindow_events (this : ST7789) (x0 y0 x1 y1 : Z) :
  events (setWindow x0 y0 x1 y1) this
  = command_frame this 0x2A
    ++ data_frame this [u8 (Z.shiftr x0 8)]
    ++ data_frame this [u8 (Z.land x0 0xFF)]
    ++ data_frame this [u8 (Z.shiftr x1 8)]
    ++ data_frame this [u8 (Z.land x1 0xFF)]
    ++ command_frame this 0x2B
    ++ data_frame this [u8 (Z.shiftr y0 8)]
    ++ data_frame this [u8 (Z.land y0 0xFF)]
    ++ data_frame this [u8 (Z.shiftr y1 8)]
    ++ data_frame this [u8 (Z.land y1 0xFF)]
    ++ command_frame this 0x2C.
Proof. reflexivity. Qed.

Lemma init_events (this : ST7789) (baudrate : Z) :
  events (init baudrate) this
  = init_setup this baudrate
    ++ [ Ev_gpio_put (_rst this) true; Ev_sleep_ms 100;
         Ev_gpio_put (_rst this) false; Ev_sleep_ms 100;
         Ev_gpio_put (_rst this) true; Ev_sleep_ms 100 ]
    ++ command_frame this 0x01 ++ [ Ev_sleep_ms 150 ]
    ++ command_frame this 0x11 ++ [ Ev_sleep_ms 120 ]
    ++ command_frame this 0x3A ++ data_frame this [0x55]
    ++ command_frame this 0x36 ++ data_frame this [0x00]
    ++ command_frame this 0x20
    ++ command_frame this 0x29 ++ [ Ev_sleep_ms 100 ].
Proof. reflexivity. Qed.

(** *** The pixel loop *)

Lemma for_upto_events (body : Z -> M unit) (e : ST7789 -> event) :
  (forall i, preserves_object (body i)) ->
  (forall i this, events (body i) this = [e this]) ->
  forall n i this, events (for_upto n i body) this = repeat (e this) n.
Proof.
  intros Hframe Hbody. induction n as [|n IH]; intros i this; simpl.
  - reflexivity.
  - rewrite events_bind, Hbody, Hframe, IH. reflexivity.
Qed.

Lemma pixel_loop_events (this : ST7789) (buf : list Z) (bound : Z) :
  events
    (for_loop 0 bound
       (fun _ => spi <- member _spi ;; spi_write_blocking spi buf)) this
  = repeat (Ev_spi_write_blocking (_spi this) buf) (Z.to_nat bound).
Proof.
  unfold for_loop. rewrite Z.sub_0_r.
  apply (for_upto_events _ (fun o => Ev_spi_write_blocking (_spi o) buf)).
  - intros i. frame.
  - intros i o. reflexivity.
Qed.

(** *** Traces of the drawing routines *)

Lemma out_of_bounds_guard (x y : Z) :
  (x >=? SCREEN_WIDTH) || (y >=? SCREEN_HEIGHT) = true
  <-> x >= 240 \/ y >= 320.
Proof.
  unfold SCREEN_WIDTH, SCREEN_HEIGHT.
  rewrite orb_true_iff, !Z.geb_le. lia.
Qed.

Lemma in_bounds_guard (x y : Z) :
  x < 240 -> y < 320 ->
  (x >=? SCREEN_WIDTH) || (y >=? SCREEN_HEIGHT) = false.
Proof.
  intros Hx Hy. destruct (_ || _) eqn:E; [|reflexivity].
  apply out_of_bounds_guard in E. lia.
Qed.

(** [fillRect] with the origin on the screen, before any assumption on the
    ranges of its arguments. *)
Lemma fillRect_events (this : ST7789) (x y w h color : Z) :
  x < 240 -> y < 320 ->
  let w' := if x + w >? 240 then u16 (240 - x) else w in
  let h' := if y + h >? 320 then u16 (320 - y) else h in
  events (fillRect x y w h color) this
  = events (setWindow x y (u16 (x + w' - 1)) (u16 (y + h' - 1))) this
    ++ pixel_stream this [u8 (Z.shiftr color 8); u8 (Z.land color 0xFF)]
         (Z.to_nat (u32 (w' * h'))).
Proof.
  intros Hx Hy w' h'. unfold fillRect.
  rewrite (in_bounds_guard x y Hx Hy). cbv zeta.
  fold w' h'. change SCREEN_WIDTH with 240. change SCREEN_HEIGHT with 320.
  fold w' h'.
  rewrite events_bind. f_equal.
  rewrite preserves_setWindow.
  rewrite !events_bind. cbn [events member call gpio_put fst snd app].
  change (object_after (member _dc) this) with this.
  change (object_after (gpio_put (_dc this) true) this) with this.
  change (object_after (member _cs) this) with this.
  change (object_after (gpio_put (_cs this) false) this) with this.
  rewrite preserves_for_loop by (intros i; frame).
  rewrite pixel_loop_events. reflexivity.
Qed.

Lemma drawPixel_events (this : ST7789) (x y color : Z) :
  x < 240 -> y < 320 ->
  events (drawPixel x y color) this
  = events (setWindow x y x y) this
    ++ data_frame this [u8 (Z.shiftr color 8); u8 (Z.land color 0xFF)].
Proof.
  intros Hx Hy. unfold drawPixel.
  rewrite (in_bounds_guard x y Hx Hy). cbv zeta.
  rewrite events_bind, preserves_setWindow, writeDataBuf_events.
  reflexivity.
Qed.

(** *** Clipping on 16-bit arguments *)

Lemma clipped_range (origin extent limit : Z) :
  0 <= origin < limit -> 0 <= extent ->
  0 <= clipped origin extent limit <= limit - origin.
Proof.
  intros Ho He. unfold clipped.
  destruct (Z.gtb_spec (origin + extent) limit); lia.
Qed.

Lemma clip_width (x w : Z) :
  is_u16 x -> x < 240 ->
  (if x + w >? 240 then u16 (240 - x) else w) = clipped x w 240.
Proof.
  unfold is_u16, clipped. intros Hx Hlt.
  destruct (x + w >? 240); [apply u16_small; lia | reflexivity].
Qed.

Lemma clip_height (y h : Z) :
  is_u16 y -> y < 320 ->
  (if y + h >? 320 then u16 (320 - y) else h) = clipped y h 320.
Proof.
  unfold is_u16, clipped. intros Hy Hlt.
  destruct (y + h >? 320); [apply u16_small; lia | reflexivity].
Qed.

Lemma fillRect_events_u16 (this : ST7789) (x y w h color : Z) :
  is_u16 x -> is_u16 y -> is_u16 w -> is_u16 h ->
  x < 240 -> y < 320 ->
  events (fillRect x y w h color) this
  = events (setWindow x y (u16 (x + clipped x w 240 - 1))
                          (u16 (y + clipped y h 320 - 1))) this
    ++ pixel_stream this [u8 (Z.shiftr color 8); u8 (Z.land color 0xFF)]
         (Z.to_nat (clipped x w 240 * clipped y h 320)).
Proof.
  intros Hx Hy Hw Hh Hxlt Hylt.
  rewrite (fillRect_events this x y w h color Hxlt Hylt). cbv zeta.
  rewrite (clip_width x w Hx Hxlt), (clip_height y h Hy Hylt).
  unfold is_u16 in *.
  pose proof (clipped_range x w 240 ltac:(lia) ltac:(lia)) as Hcw.
  pose proof (clipped_range y h 320 ltac:(lia) ltac:(lia)) as Hch.
  rewrite u32_small by nia. reflexivity.
Qed.

(** *** Counting pixel writes *)

Lemma pixel_writes_app (tr1 tr2 : list event) :
  pixel_writes (tr1 ++ tr2) = (pixel_writes tr1 + pixel_writes tr2)%nat.
Proof.
  induction tr1 as [|e tr1 IH]; [reflexivity|].
  destruct e as [| | | | |spi src|]; simpl; try exact IH.
  destruct src as [|a [|b [|c src]]]; simpl; rewrite IH; reflexivity.
Qed.

Lemma pixel_writes_setWindow (this : ST7789) (x0 y0 x1 y1 : Z) :
  pixel_writes (events (setWindow x0 y0 x1 y1) this) = 0%nat.
Proof. reflexivity. Qed.

Lemma pixel_writes_repeat (spi : spi_inst_t) (a b : Z) (n : nat) :
  pixel_writes (repeat (Ev_spi_write_blocking spi [a; b]) n) = n.
Proof. induction n as [|n IH]; simpl; [reflexivity | now rewrite IH]. Qed.

Lemma pixel_writes_stream (this : ST7789) (a b : Z) (n : nat) :
  pixel_writes (pixel_stream this [a; b] n) = n.
Proof.
  unfold pixel_stream. simpl. rewrite pixel_writes_app, pixel_writes_repeat.
  simpl. apply Nat.add_0_r.
Qed.

Lemma spi_payloads_app (tr1 tr2 : list event) :
  spi_payloads (tr1 ++ tr2) = spi_payloads tr1 ++ spi_payloads tr2.
Proof.
  induction tr1 as [|e tr1 IH]; [reflexivity|].
  destruct e; simpl; rewrite IH; reflexivity.
Qed.

Lemma spi_payloads_stream (this : ST7789) (buf : list Z) (n : nat) :
  spi_payloads (pixel_stream this buf n) = repeat buf n.
Proof.
  unfold pixel_stream. simpl. rewrite spi_payloads_app. simpl.
  rewrite app_nil_r. induction n as [|n IH]; simpl; [|rewrite IH]; reflexivity.
Qed.

(** *** The controller's view of a frame *)

Lemma wire_view_frame (this : ST7789) (dc_level level : bool)
    (bytes : list Z) (rest : list event) :
  distinct_control_pins this ->
  wire_view (_dc this) level (frame this dc_level bytes ++ rest)
  = (if dc_level then Wire_data bytes else Wire_command bytes)
      :: wire_view (_dc this) dc_level rest.
Proof.
  unfold distinct_control_pins. intros Hpins. simpl.
  rewrite Z.eqb_refl.
  destruct (Z.eqb_spec (_cs this) (_dc this)) as [E|_]; [contradiction|].
  reflexivity.
Qed.

Lemma wire_view_command (this : ST7789) (level : bool) (cmd : Z)
    (rest : list event) :
  distinct_control_pins this ->
  wire_view (_dc this) level (command_frame this cmd ++ rest)
  = Wire_command [cmd] :: wire_view (_dc this) false rest.
Proof. intros Hpins. apply (wire_view_frame this false), Hpins. Qed.

Lemma wire_view_data (this : ST7789) (level : bool) (bytes : list Z)
    (rest : list event) :
  distinct_control_pins this ->
  wire_view (_dc this) level (data_frame this bytes ++ rest)
  = Wire_data bytes :: wire_view (_dc this) true rest.
Proof. intros Hpins. apply (wire_view_frame this true), Hpins. Qed.

(** ** Properties of the driver *)

(** C1.  A call [fillRect(x,y,w,h,color)] whose origin is on the screen and
    whose rectangle crosses the right or the bottom edge replaces [w] by
    [240-x] when [x+w > 240] and [h] by [320-y] when [y+h > 320], both
    computed without 16-bit wrap-around; afterwards [x+w <= 240] and
    [y+h <= 320], and the call makes exactly [w*h] two-byte pixel writes for
    the clipped [w] and [h]. *)
Theorem fillRect_clips_to_screen (this : ST7789) (x y w h color : Z) :
  is_u16 x -> is_u16 y -> is_u16 w -> is_u16 h ->
  x < 240 -> y < 320 ->
  x + w > 240 \/ y + h > 320 ->
  let w_clipped := clipped x w 240 in
  let h_clipped := clipped y h 320 in
  (x + w > 240 -> w_clipped = 240 - x)
  /\ (y + h > 320 -> h_clipped = 320 - y)
  /\ x + w_clipped <= 240
  /\ y + h_clipped <= 320
  /\ events (fillRect x y w h color) this
     = events (setWindow x y (u16 (x + w_clipped - 1))
                             (u16 (y + h_clipped - 1))) this
       ++ pixel_stream this [u8 (Z.shiftr color 8); u8 (Z.land color 0xFF)]
            (Z.to_nat (w_clipped * h_clipped))
  /\ Z.of_nat (pixel_writes (events (fillRect x y w h color) this))
     = w_clipped * h_clipped.
Proof.
  intros Hx Hy Hw Hh Hxlt Hylt Hover w_clipped h_clipped.
  pose proof (fillRect_events_u16 this x y w h color Hx Hy Hw Hh Hxlt Hylt)
    as Htrace.
  fold w_clipped h_clipped in Htrace.
  unfold is_u16 in *.
  assert (Hcw : 0 <= w_clipped <= 240 - x)
    by (apply clipped_range; lia).
  assert (Hch : 0 <= h_clipped <= 320 - y)
    by (apply clipped_range; lia).
  repeat split.
  - intros Hgt. subst w_clipped. unfold clipped.
    destruct (Z.gtb_spec (x + w) 240); [reflexivity | lia].
  - intros Hgt. subst h_clipped. unfold clipped.
    destruct (Z.gtb_spec (y + h) 320); [reflexivity | lia].
  - lia.
  - lia.
  - exact Htrace.
  - rewrite Htrace, pixel_writes_app, pixel_writes_setWindow,
      pixel_writes_stream.
    simpl. rewrite Z2Nat.id by nia. reflexivity.
Qed.

Lemma fillRect_clips_to_screen_witness :
  (200 + 100 > 240 \/ 300 + 50 > 320)
  /\ events (fillRect 200 300 100 50 COLOR_RED) display
     = events (setWindow 200 300 239 319) display
       ++ pixel_stream display [0xF8; 0x00] 800
  /\ Z.of_nat (pixel_writes (events (fillRect 200 300 100 50 COLOR_RED)
                               display)) = 40 * 20.
Proof.
  split; [lia|].
  destruct (fillRect_clips_to_screen display 200 300 100 50 COLOR_RED)
    as (_ & _ & _ & _ & Htrace & Hcount);
    try (unfold is_u16; lia).
  split; [exact Htrace | exact Hcount].
Defined.

(** C2.  For all 16-bit [x0], [y0], [x1], [y1], [setWindow] sends the
    column-address-set command 0x2A followed by the four data bytes
    [x0>>8], [x0&0xFF], [x1>>8], [x1&0xFF], then the row-address-set
    command 0x2B followed by the same pattern for [y0] and [y1], then the
    memory-write command 0x2C with nothing after it; [setWindow(10,20,50,60)]
    sends column data 00 0A 00 32 and row data 00 14 00 3C. *)
Theorem setWindow_protocol (this : ST7789) (x0 y0 x1 y1 : Z) :
  is_u16 x0 -> is_u16 y0 -> is_u16 x1 -> is_u16 y1 ->
  events (setWindow x0 y0 x1 y1) this
  = command_frame this 0x2A
    ++ data_frame this [Z.shiftr x0 8] ++ data_frame this [Z.land x0 0xFF]
    ++ data_frame this [Z.shiftr x1 8] ++ data_frame this [Z.land x1 0xFF]
    ++ command_frame this 0x2B
    ++ data_frame this [Z.shiftr y0 8] ++ data_frame this [Z.land y0 0xFF]
    ++ data_frame this [Z.shiftr y1 8] ++ data_frame this [Z.land y1 0xFF]
    ++ command_frame this 0x2C
  /\ (distinct_control_pins this ->
      forall level,
        wire_view (_dc this) level (events (setWindow x0 y0 x1 y1) this)
        = [ Wire_command [0x2A];
            Wire_data [Z.shiftr x0 8]; Wire_data [Z.land x0 0xFF];
            Wire_data [Z.shiftr x1 8]; Wire_data [Z.land x1 0xFF];
            Wire_command [0x2B];
            Wire_data [Z.shiftr y0 8]; Wire_data [Z.land y0 0xFF];
            Wire_data [Z.shiftr y1 8]; Wire_data [Z.land y1 0xFF];
            Wire_command [0x2C] ])
  /\ spi_payloads (events (setWindow 10 20 50 60) this)
     = [ [0x2A]; [0x00]; [0x0A]; [0x00]; [0x32];
         [0x2B]; [0x00]; [0x14]; [0x00]; [0x3C];
         [0x2C] ].
Proof.
  intros Hx0 Hy0 Hx1 Hy1.
  assert (Htrace :
    events (setWindow x0 y0 x1 y1) this
    = command_frame this 0x2A
      ++ data_frame this [Z.shiftr x0 8] ++ data_frame this [Z.land x0 0xFF]
      ++ data_frame this [Z.shiftr x1 8] ++ data_frame this [Z.land x1 0xFF]
      ++ command_frame this 0x2B
      ++ data_frame this [Z.shiftr y0 8] ++ data_frame this [Z.land y0 0xFF]
      ++ data_frame this [Z.shiftr y1 8] ++ data_frame this [Z.land y1 0xFF]
      ++ command_frame this 0x2C).
  { rewrite setWindow_events.
    rewrite !u8_high_byte by assumption. rewrite !u8_low_byte.
    reflexivity. }
  split; [exact Htrace|]. split.
  - intros Hpins level. rewrite Htrace.
    rewrite <- (app_nil_r (command_frame this 0x2C)).
    repeat first [ rewrite wire_view_command by exact Hpins
                 | rewrite wire_view_data by exact Hpins ].
    reflexivity.
  - vm_compute. reflexivity.
Qed.

Lemma setWindow_protocol_witness :
  wire_view PIN_DC false (events (setWindow 10 20 50 60) display)
  = [ Wire_command [0x2A];
      Wire_data [0x00]; Wire_data [0x0A]; Wire_data [0x00]; Wire_data [0x32];
      Wire_command [0x2B];
      Wire_data [0x00]; Wire_data [0x14]; Wire_data [0x00]; Wire_data [0x3C];
      Wire_command [0x2C] ].
Proof.
  refine (proj1 (proj2 (setWindow_protocol display 10 20 50 60 _ _ _ _))
            _ false);
    unfold is_u16, distinct_control_pins, display, PIN_CS, PIN_DC;
    simpl; lia.
Defined.

(** C3.  Whatever the baud rate, [init] sends the controller commands in the
    order software reset 0x01, sleep out 0x11, colour mode 0x3A with
    parameter 0x55, memory access control 0x36 with parameter 0x00,
    inversion off 0x20, display on 0x29; the baud rate appears in the first
    SDK call only. *)
Theorem init_command_order (this : ST7789) (baudrate : Z) :
  spi_payloads (events (init baudrate) this)
  = [ [ST7789_SWRESET]; [ST7789_SLPOUT]; [ST7789_COLMOD]; [0x55];
      [ST7789_MADCTL]; [0x00]; [ST7789_INVOFF]; [ST7789_DISPON] ]
  /\ (distinct_control_pins this ->
      forall level,
        wire_view (_dc this) level (events (init baudrate) this)
        = [ Wire_command [0x01]; Wire_command [0x11];
            Wire_command [0x3A]; Wire_data [0x55];
            Wire_command [0x36]; Wire_data [0x00];
            Wire_command [0x20]; Wire_command [0x29] ])
  /\ (forall baudrate',
        tl (events (init baudrate') this) = tl (events (init baudrate) this)).
Proof.
  split; [reflexivity|]. split; [|reflexivity].
  intros Hpins level. rewrite init_events.
  cbn [init_setup app wire_view].
  repeat first [ rewrite wire_view_command by exact Hpins
               | rewrite wire_view_data by exact Hpins
               | progress cbn [wire_view] ].
  reflexivity.
Qed.

Lemma init_command_order_witness :
  wire_view PIN_DC true (events (init SPI_BAUDRATE) display)
  = [ Wire_command [0x01]; Wire_command [0x11];
      Wire_command [0x3A]; Wire_data [0x55];
      Wire_command [0x36]; Wire_data [0x00];
      Wire_command [0x20]; Wire_command [0x29] ].
Proof.
  refine (proj1 (proj2 (init_command_order display SPI_BAUDRATE)) _ true).
  unfold distinct_control_pins, display, PIN_CS, PIN_DC; simpl; lia.
Defined.

(** C4.  For every 16-bit colour [c], the two bytes [fillRect] and
    [drawPixel] hand to the SPI peripheral for a pixel are [c >> 8] followed
    by [c & 0xFF]: 0xF800 goes out as F8 00, 0x07E0 as 07 E0 and 0xFFFF as
    FF FF. *)
Theorem color_is_sent_big_endian (this : ST7789) (color : Z) :
  is_u16 color ->
  (forall x y,
      x < 240 -> y < 320 ->
      events (drawPixel x y color) this
      = events (setWindow x y x y) this
        ++ data_frame this [Z.shiftr color 8; Z.land color 0xFF])
  /\ (forall x y w h,
      is_u16 x -> is_u16 y -> is_u16 w -> is_u16 h ->
      x < 240 -> y < 320 ->
      events (fillRect x y w h color) this
      = events (setWindow x y (u16 (x + clipped x w 240 - 1))
                              (u16 (y + clipped y h 320 - 1))) this
        ++ pixel_stream this [Z.shiftr color 8; Z.land color 0xFF]
             (Z.to_nat (clipped x w 240 * clipped y h 320)))
  /\ skipn 11 (spi_payloads (events (drawPixel 0 0 0xF800) this))
     = [ [0xF8; 0x00] ]
  /\ skipn 11 (spi_payloads (events (drawPixel 0 0 0x07E0) this))
     = [ [0x07; 0xE0] ]
  /\ skipn 11 (spi_payloads (events (drawPixel 0 0 0xFFFF) this))
     = [ [0xFF; 0xFF] ]
  /\ skipn 11 (spi_payloads (events (fillRect 0 0 2 1 0xF800) this))
     = [ [0xF8; 0x00]; [0xF8; 0x00] ]
  /\ skipn 11 (spi_payloads (events (fillRect 0 0 2 1 0x07E0) this))
     = [ [0x07; 0xE0]; [0x07; 0xE0] ]
  /\ skipn 11 (spi_payloads (events (fillRect 0 0 2 1 0xFFFF) this))
     = [ [0xFF; 0xFF]; [0xFF; 0xFF] ].
Proof.
  intros Hc. split; [|split].
  - intros x y Hx Hy. rewrite (drawPixel_events this x y color Hx Hy).
    rewrite (u8_high_byte color Hc), u8_low_byte. reflexivity.
  - intros x y w h Hx Hy Hw Hh Hxlt Hylt.
    rewrite (fillRect_events_u16 this x y w h color Hx Hy Hw Hh Hxlt Hylt).
    rewrite (u8_high_byte color Hc), u8_low_byte. reflexivity.
  - repeat split; vm_compute; reflexivity.
Qed.

Lemma color_is_sent_big_endian_witness :
  events (drawPixel 3 4 COLOR_GREEN) display
  = events (setWindow 3 4 3 4) display ++ data_frame display [0x07; 0xE0].
Proof.
  refine (proj1 (color_is_sent_big_endian display COLOR_GREEN _) 3 4 _ _);
    unfold is_u16, COLOR_GREEN; lia.
Defined.

(** C5.  When [x >= 240] or [y >= 320], [drawPixel] makes no SDK call at all
    (no pin change, no byte on the bus), and neither does [fillRect] with
    such an origin, whatever its other arguments. *)
Theorem out_of_bounds_origin_is_silent (this : ST7789) (x y color : Z) :
  x >= 240 \/ y >= 320 ->
  events (drawPixel x y color) this = []
  /\ object_after (drawPixel x y color) this = this
  /\ forall w h,
       events (fillRect x y w h color) this = []
       /\ object_after (fillRect x y w h color) this = this.
Proof.
  intros Hout. apply out_of_bounds_guard in Hout.
  unfold drawPixel, fillRect. rewrite Hout.
  repeat split.
Qed.

Lemma out_of_bounds_origin_is_silent_witness :
  events (drawPixel 240 0 COLOR_WHITE) display = []
  /\ events (fillRect 0 320 10 10 COLOR_WHITE) display = [].
Proof.
  split.
  - apply (out_of_bounds_origin_is_silent display 240 0 COLOR_WHITE). lia.
  - apply (out_of_bounds_origin_is_silent display 0 320 COLOR_WHITE). lia.
Defined.

(** C6.  [fillScreen(c)] produces the same run as [fillRect(0,0,240,320,c)]:
    the same SDK calls in the same order (pin changes included), namely the
    window (0,0)-(239,319) followed by 76800 pixel writes. *)
Theorem fillScreen_is_full_fillRect (this : ST7789) (color : Z) :
  fillScreen color this = fillRect 0 0 240 320 color this
  /\ events (fillScreen color) this
     = events (fillRect 0 0 240 320 color) this
  /\ events (fillRect 0 0 240 320 color) this
     = events (setWindow 0 0 239 319) this
       ++ pixel_stream this [u8 (Z.shiftr color 8); u8 (Z.land color 0xFF)]
            (Z.to_nat 76800).
Proof.
  split; [reflexivity|]. split; [reflexivity|].
  rewrite (fillRect_events_u16 this 0 0 240 320 color)
    by (unfold is_u16; lia).
  reflexivity.
Qed.

(** C7.  [writeDataBuf] and the pixel stream of [fillRect] are each one
    chip-select transaction: chip-select is driven low once before the first
    byte and high once after the last one, with no pin change in between;
    inside that window [fillRect] makes one two-byte SPI write per pixel of
    the clipped rectangle. *)
Theorem chip_select_spans_whole_transfer (this : ST7789) :
  (forall buf,
      events (writeDataBuf buf) this
      = [ Ev_gpio_put (_dc this) true;
          Ev_gpio_put (_cs this) false;
          Ev_spi_write_blocking (_spi this) buf;
          Ev_gpio_put (_cs this) true ])
  /\ (forall x y w h color,
      is_u16 x -> is_u16 y -> is_u16 w -> is_u16 h ->
      x < 240 -> y < 320 ->
      let w_clipped := clipped x w 240 in
      let h_clipped := clipped y h 320 in
      events (fillRect x y w h color) this
      = events (setWindow x y (u16 (x + w_clipped - 1))
                              (u16 (y + h_clipped - 1))) this
        ++ [ Ev_gpio_put (_dc this) true; Ev_gpio_put (_cs this) false ]
        ++ repeat
             (Ev_spi_write_blocking (_spi this)
                [u8 (Z.shiftr color 8); u8 (Z.land color 0xFF)])
             (Z.to_nat (w_clipped * h_clipped))
        ++ [ Ev_gpio_put (_cs this) true ]).
Proof.
  split.
  - intros buf. apply writeDataBuf_events.
  - intros x y w h color Hx Hy Hw Hh Hxlt Hylt w_clipped h_clipped.
    apply (fillRect_events_u16 this x y w h color Hx Hy Hw Hh Hxlt Hylt).
Qed.

Lemma chip_select_spans_whole_transfer_witness :
  events (fillRect 238 0 5 2 COLOR_BLUE) display
  = events (setWindow 238 0 239 1) display
    ++ [ Ev_gpio_put PIN_DC true; Ev_gpio_put PIN_CS false ]
    ++ repeat (Ev_spi_write_blocking spi0 [0x00; 0x1F]) 4
    ++ [ Ev_gpio_put PIN_CS true ].
Proof.
  refine (proj2 (chip_select_spans_whole_transfer display)
            238 0 5 2 COLOR_BLUE _ _ _ _ _ _);
    unfold is_u16; lia.
Defined.

(** C8.  [init] drives the reset pin high, sleeps at least 100 ms, drives it
    low, sleeps at least 100 ms, drives it high and sleeps at least 100 ms;
    it then sleeps at least 150 ms right after the software-reset command,
    at least 120 ms right after the sleep-out command and at least 100 ms
    right after the display-on command, with nothing else in between. *)
Theorem init_follows_reset_timing (this : ST7789) (baudrate : Z) :
  follows (init_schedule this baudrate) (events (init baudrate) this).
Proof.
  rewrite init_events. simpl. repeat split; lia.
Qed.

(** C9.  The constructor stores the peripheral and the five pin numbers, and
    no operation changes any of the six members afterwards: [init],
    [fillScreen], [fillRect], [drawPixel] and the transport routines all
    leave the object exactly as they found it. *)
Theorem configuration_is_never_written (this : ST7789) :
  (forall spi cs dc rst sck mosi,
      let d := ST7789_new spi cs dc rst sck mosi in
      _spi d = spi /\ _cs d = cs /\ _dc d = dc /\ _rst d = rst
      /\ _sck d = sck /\ _mosi d = mosi)
  /\ (forall baudrate, object_after (init baudrate) this = this)
  /\ (forall color, object_after (fillScreen color) this = this)
  /\ (forall x y w h color, object_after (fillRect x y w h color) this = this)
  /\ (forall x y color, object_after (drawPixel x y color) this = this)
  /\ (forall cmd, object_after (writeCommand cmd) this = this)
  /\ (forall data, object_after (writeData data) this = this)
  /\ (forall buf, object_after (writeDataBuf buf) this = this)
  /\ (forall x0 y0 x1 y1, object_after (setWindow x0 y0 x1 y1) this = this).
Proof.
  split; [intros; repeat split|].
  repeat match goal with |- _ /\ _ => split end; intros.
  - apply preserves_init.
  - apply preserves_fillScreen.
  - apply preserves_fillRect.
  - apply preserves_drawPixel.
  - apply preserves_writeCommand.
  - apply preserves_writeData.
  - apply preserves_writeDataBuf.
  - apply preserves_setWindow.
Qed.

(** C10.  A call [fillRect(x,y,w,h,color)] with the origin on the screen and
    [w = 0] or [h = 0] is not silent: it sends the complete window sequence,
    whose end coordinate is [x+w-1] (resp. [y+h-1]) reduced to 16 bits, so
    one below the start and 65535 when the start is 0, and then opens and
    closes the pixel transaction without a single pixel write. *)
Theorem fillRect_zero_extent_still_sets_window
    (this : ST7789) (x y w h color : Z) :
  is_u16 x -> is_u16 y -> is_u16 w -> is_u16 h ->
  x < 240 -> y < 320 ->
  w = 0 \/ h = 0 ->
  let x1 := u16 (x + clipped x w 240 - 1) in
  let y1 := u16 (y + clipped y h 320 - 1) in
  events (fillRect x y w h color) this
  = events (setWindow x y x1 y1) this
    ++ [ Ev_gpio_put (_dc this) true;
         Ev_gpio_put (_cs this) false;
         Ev_gpio_put (_cs this) true ]
  /\ length (spi_payloads (events (fillRect x y w h color) this)) = 11%nat
  /\ pixel_writes (events (fillRect x y w h color) this) = 0%nat
  /\ (w = 0 -> x1 = if x =? 0 then 65535 else x - 1)
  /\ (h = 0 -> y1 = if y =? 0 then 65535 else y - 1).
Proof.
  intros Hx Hy Hw Hh Hxlt Hylt Hzero x1 y1.
  pose proof (fillRect_events_u16 this x y w h color Hx Hy Hw Hh Hxlt Hylt)
    as Htrace.
  fold x1 y1 in Htrace.
  unfold is_u16 in *.
  assert (Hcw : 0 <= clipped x w 240 <= 240 - x)
    by (apply clipped_range; lia).
  assert (Hch : 0 <= clipped y h 320 <= 320 - y)
    by (apply clipped_range; lia).
  assert (Hw0 : w = 0 -> clipped x w 240 = 0).
  { intros ->. unfold clipped. rewrite Z.add_0_r.
    destruct (Z.gtb_spec x 240); [lia | reflexivity]. }
  assert (Hh0 : h = 0 -> clipped y h 320 = 0).
  { intros ->. unfold clipped. rewrite Z.add_0_r.
    destruct (Z.gtb_spec y 320); [lia | reflexivity]. }
  assert (Hnone : Z.to_nat (clipped x w 240 * clipped y h 320) = 0%nat).
  { destruct Hzero as [E|E];
      [rewrite (Hw0 E) | rewrite (Hh0 E), Z.mul_0_r]; reflexivity. }
  rewrite Hnone in Htrace.
  assert (Hend : forall v, 0 <= v < 65536 ->
                   u16 (v + 0 - 1) = if v =? 0 then 65535 else v - 1).
  { intros v Hv. destruct (Z.eqb_spec v 0) as [->|Hne].
    - reflexivity.
    - rewrite Z.add_0_r. apply u16_small. lia. }
  repeat split.
  - exact Htrace.
  - rewrite Htrace, spi_payloads_app. reflexivity.
  - rewrite Htrace, pixel_writes_app. reflexivity.
  - intros E. subst x1. rewrite (Hw0 E). apply Hend. lia.
  - intros E. subst y1. rewrite (Hh0 E). apply Hend. lia.
Qed.

Lemma fillRect_zero_extent_still_sets_window_witness :
  spi_payloads (events (fillRect 0 7 0 5 COLOR_RED) display)
  = [ [0x2A]; [0x00]; [0x00]; [0xFF]; [0xFF];
      [0x2B]; [0x00]; [0x07]; [0x00]; [0x0B];
      [0x2C] ]
  /\ pixel_writes (events (fillRect 0 7 0 5 COLOR_RED) display) = 0%nat.
Proof.
  destruct (fillRect_zero_extent_still_sets_window display 0 7 0 5 COLOR_RED)
    as (Htrace & _ & Hcount & _);
    try (unfold is_u16; lia).
  split; [rewrite Htrace; reflexivity | exact Hcount].
Defined.

(** ** Further facts about traces *)

Lemma guard_false (x y : Z) :
  (x >=? SCREEN_WIDTH) || (y >=? SCREEN_HEIGHT) = false ->
  x < 240 /\ y < 320.
Proof.
  unfold SCREEN_WIDTH, SCREEN_HEIGHT. intros E.
  apply orb_false_iff in E. destruct E as [Ex Ey].
  rewrite Z.geb_leb in Ex, Ey. apply Z.leb_gt in Ex, Ey. lia.
Qed.

Lemma fillRect_silent (this : ST7789) (x y w h color : Z) :
  (x >=? SCREEN_WIDTH) || (y >=? SCREEN_HEIGHT) = true ->
  events (fillRect x y w h color) this = [].
Proof. intros E. unfold fillRect. rewrite E. reflexivity. Qed.

Lemma drawPixel_silent (this : ST7789) (x y color : Z) :
  (x >=? SCREEN_WIDTH) || (y >=? SCREEN_HEIGHT) = true ->
  events (drawPixel x y color) this = [].
Proof. intros E. unfold drawPixel. rewrite E. reflexivity. Qed.

(** *** Big-endian pairs *)

Lemma be16_split (v : Z) : be16 (Z.shiftr v 8) (Z.land v 0xFF) = v.
Proof.
  unfold be16. change 0xFF with (Z.ones 8).
  apply Z.bits_inj'. intros n Hn.
  rewrite Z.lor_spec, Z.land_spec, Z.testbit_ones_nonneg by lia.
  destruct (Z.ltb_spec n 8) as [Hlt|Hge].
  - rewrite Z.shiftl_spec_low by lia. simpl. apply andb_true_r.
  - rewrite Z.shiftl_spec, Z.shiftr_spec by lia.
    rewrite andb_false_r, orb_false_r. f_equal. lia.
Qed.

Lemma be16_bytes (v : Z) :
  is_u16 v -> be16 (u8 (Z.shiftr v 8)) (u8 (Z.land v 0xFF)) = v.
Proof.
  intros Hv. rewrite (u8_high_byte v Hv), u8_low_byte. apply be16_split.
Qed.

(** *** Chip-select across frames *)

Lemma cs_framed_frame (this : ST7789) (dc_level level : bool)
    (bytes : list Z) (rest : list event) :
  cs_framed (_cs this) level (frame this dc_level bytes ++ rest)
  = cs_framed (_cs this) true rest.
Proof. simpl. rewrite Z.eqb_refl. reflexivity. Qed.

Lemma cs_framed_command (this : ST7789) (level : bool) (cmd : Z)
    (rest : list event) :
  cs_framed (_cs this) level (command_frame this cmd ++ rest)
  = cs_framed (_cs this) true rest.
Proof. apply cs_framed_frame. Qed.

Lemma cs_framed_data (this : ST7789) (level : bool) (bytes : list Z)
    (rest : list event) :
  cs_framed (_cs this) level (data_frame this bytes ++ rest)
  = cs_framed (_cs this) true rest.
Proof. apply cs_framed_frame. Qed.

Lemma cs_framed_writes (cs : Z) (spi : spi_inst_t) (buf : list Z) (n : nat)
    (rest : list event) :
  cs_framed cs false (repeat (Ev_spi_write_blocking spi buf) n ++ rest)
  = cs_framed cs false rest.
Proof. induction n as [|n IH]; simpl; [reflexivity | exact IH]. Qed.

Lemma cs_framed_stream (this : ST7789) (level : bool) (buf : list Z)
    (n : nat) (rest : list event) :
  cs_framed (_cs this) level (pixel_stream this buf n ++ rest)
  = cs_framed (_cs this) true rest.
Proof.
  unfold pixel_stream. simpl. rewrite Z.eqb_refl.
  rewrite <- app_assoc, cs_framed_writes. simpl.
  rewrite Z.eqb_refl. reflexivity.
Qed.

Lemma cs_framed_setWindow (this : ST7789) (level : bool) (x0 y0 x1 y1 : Z)
    (rest : list event) :
  cs_framed (_cs this) level (events (setWindow x0 y0 x1 y1) this ++ rest)
  = cs_framed (_cs this) true rest.
Proof.
  rewrite setWindow_events. rewrite <- !app_assoc.
  repeat first [ rewrite cs_framed_command | rewrite cs_framed_data ].
  reflexivity.
Qed.

Lemma cs_framed_fillRect (this : ST7789) (x y w h color : Z)
    (rest : list event) :
  cs_framed (_cs this) true (events (fillRect x y w h color) this ++ rest)
  = cs_framed (_cs this) true rest.
Proof.
  destruct ((x >=? SCREEN_WIDTH) || (y >=? SCREEN_HEIGHT)) eqn:E.
  - rewrite (fillRect_silent this x y w h color E). reflexivity.
  - apply guard_false in E. destruct E as [Hx Hy].
    rewrite (fillRect_events this x y w h color Hx Hy). cbv zeta.
    rewrite <- app_assoc, cs_framed_setWindow, cs_framed_stream.
    reflexivity.
Qed.

Lemma cs_framed_drawPixel (this : ST7789) (x y color : Z)
    (rest : list event) :
  cs_framed (_cs this) true (events (drawPixel x y color) this ++ rest)
  = cs_framed (_cs this) true rest.
Proof.
  destruct ((x >=? SCREEN_WIDTH) || (y >=? SCREEN_HEIGHT)) eqn:E.
  - rewrite (drawPixel_silent this x y color E). reflexivity.
  - apply guard_false in E. destruct E as [Hx Hy].
    rewrite (drawPixel_events this x y color Hx Hy).
    rewrite <- app_assoc, cs_framed_setWindow, cs_framed_data.
    reflexivity.
Qed.

Lemma cs_framed_init (this : ST7789) (level : bool) (baudrate : Z)
    (rest : list event) :
  cs_framed (_cs this) level (events (init baudrate) this ++ rest)
  = cs_framed (_cs this) true rest.
Proof.
  rewrite init_events. rewrite <- !app_assoc.
  cbn [init_setup app cs_framed].
  repeat first [ rewrite cs_framed_command | rewrite cs_framed_data
               | progress cbn [app cs_framed] ].
  reflexivity.
Qed.

(** *** Counting bytes *)

Lemma bytes_sent_app (tr1 tr2 : list event) :
  bytes_sent (tr1 ++ tr2) = (bytes_sent tr1 + bytes_sent tr2)%nat.
Proof.
  unfold bytes_sent. rewrite spi_payloads_app, concat_app, length_app.
  reflexivity.
Qed.

Lemma bytes_sent_setWindow (this : ST7789) (x0 y0 x1 y1 : Z) :
  bytes_sent (events (setWindow x0 y0 x1 y1) this) = 11%nat.
Proof. reflexivity. Qed.

Lemma bytes_sent_stream (this : ST7789) (a b : Z) (n : nat) :
  bytes_sent (pixel_stream this [a; b] n) = (2 * n)%nat.
Proof.
  unfold bytes_sent. rewrite spi_payloads_stream.
  induction n as [|n IH]; simpl in *; [reflexivity | rewrite IH; lia].
Qed.

(** *** Transport events only *)

Lemma transport_frame (this : ST7789) (dc_level : bool) (bytes : list Z) :
  Forall (transport_event this) (frame this dc_level bytes).
Proof.
  unfold frame.
  repeat (apply Forall_cons; [simpl; auto|]). apply Forall_nil.
Qed.

Lemma transport_setWindow (this : ST7789) (x0 y0 x1 y1 : Z) :
  Forall (transport_event this) (events (setWindow x0 y0 x1 y1) this).
Proof.
  rewrite setWindow_events. unfold command_frame, data_frame.
  repeat (apply Forall_app; split; [apply transport_frame|]).
  apply transport_frame.
Qed.

Lemma transport_stream (this : ST7789) (buf : list Z) (n : nat) :
  Forall (transport_event this) (pixel_stream this buf n).
Proof.
  unfold pixel_stream. apply Forall_app. split.
  - repeat (apply Forall_cons; [simpl; auto|]). apply Forall_nil.
  - apply Forall_app. split.
    + apply Forall_forall. intros e He. apply repeat_spec in He.
      subst e. reflexivity.
    + repeat (apply Forall_cons; [simpl; auto|]). apply Forall_nil.
Qed.

(** ** More properties of the driver *)

(** X1.  Chip-select discipline.  Starting with chip-select high, every
    drawing operation makes all its SPI writes while chip-select is low and
    leaves chip-select high, for all arguments and whatever pins the object
    holds; [init] does so from any initial level. *)
Theorem operations_keep_chip_select_discipline (this : ST7789) :
  (forall baudrate level,
      cs_framed (_cs this) level (events (init baudrate) this) = true)
  /\ (forall x y w h color,
      cs_framed (_cs this) true (events (fillRect x y w h color) this) = true)
  /\ (forall color,
      cs_framed (_cs this) true (events (fillScreen color) this) = true)
  /\ (forall x y color,
      cs_framed (_cs this) true (events (drawPixel x y color) this) = true).
Proof.
  repeat match goal with |- _ /\ _ => split end; intros.
  - rewrite <- (app_nil_r (events _ _)). apply cs_framed_init.
  - rewrite <- (app_nil_r (events _ _)). apply cs_framed_fillRect.
  - rewrite <- (app_nil_r (events _ _)). apply cs_framed_fillRect.
  - rewrite <- (app_nil_r (events _ _)). apply cs_framed_drawPixel.
Qed.

(** X2.  After [init] the last level driven on chip-select is high, and the
    last level driven on the reset pin is high (reset released) exactly when
    reset does not share its pin with data/command or shares it with
    chip-select. *)
Theorem init_final_pin_levels (this : ST7789) (baudrate : Z)
    (acc : option bool) :
  last_put (_cs this) acc (events (init baudrate) this) = Some true
  /\ last_put (_rst this) acc (events (init baudrate) this)
     = Some (negb (_dc this =? _rst this) || (_cs this =? _rst this)).
Proof.
  rewrite init_events. split.
  - simpl. rewrite !Z.eqb_refl. reflexivity.
  - simpl. rewrite !Z.eqb_refl.
    destruct (_cs this =? _rst this), (_dc this =? _rst this); reflexivity.
Qed.

(** X3.  The drawing operations only ever drive chip-select and
    data/command and write on the object's SPI peripheral: they never
    sleep, never configure a pin and never initialise the peripheral. *)
Theorem drawing_uses_transport_only (this : ST7789) :
  (forall x0 y0 x1 y1,
      Forall (transport_event this) (events (setWindow x0 y0 x1 y1) this))
  /\ (forall x y w h color,
      Forall (transport_event this) (events (fillRect x y w h color) this))
  /\ (forall color,
      Forall (transport_event this) (events (fillScreen color) this))
  /\ (forall x y color,
      Forall (transport_event this) (events (drawPixel x y color) this)).
Proof.
  assert (Hrect : forall x y w h color,
    Forall (transport_event this) (events (fillRect x y w h color) this)).
  { intros x y w h color.
    destruct ((x >=? SCREEN_WIDTH) || (y >=? SCREEN_HEIGHT)) eqn:E.
    - rewrite (fillRect_silent this x y w h color E). constructor.
    - apply guard_false in E. destruct E as [Hx Hy].
      rewrite (fillRect_events this x y w h color Hx Hy). cbv zeta.
      apply Forall_app. split;
        [apply transport_setWindow | apply transport_stream]. }
  repeat match goal with |- _ /\ _ => split end; intros.
  - apply transport_setWindow.
  - apply Hrect.
  - apply Hrect.
  - destruct ((x >=? SCREEN_WIDTH) || (y >=? SCREEN_HEIGHT)) eqn:E.
    + rewrite (drawPixel_silent this x y color E). constructor.
    + apply guard_false in E. destruct E as [Hx Hy].
      rewrite (drawPixel_events this x y color Hx Hy).
      apply Forall_app. split;
        [apply transport_setWindow | apply transport_frame].
Qed.

(** X4.  For 16-bit coordinates, [drawPixel(x,y,c)] is the same run as
    [fillRect(x,y,1,1,c)]: the same SDK calls in the same order, on or off
    the screen. *)
Theorem drawPixel_is_unit_fillRect (this : ST7789) (x y color : Z) :
  is_u16 x -> is_u16 y ->
  events (drawPixel x y color) this = events (fillRect x y 1 1 color) this
  /\ object_after (drawPixel x y color) this
     = object_after (fillRect x y 1 1 color) this.
Proof.
  intros Hx Hy. split.
  - destruct ((x >=? SCREEN_WIDTH) || (y >=? SCREEN_HEIGHT)) eqn:E.
    + rewrite (drawPixel_silent this x y color E).
      rewrite (fillRect_silent this x y 1 1 color E). reflexivity.
    + apply guard_false in E. destruct E as [Hxlt Hylt].
      rewrite (drawPixel_events this x y color Hxlt Hylt).
      rewrite (fillRect_events_u16 this x y 1 1 color)
        by (unfold is_u16 in *; lia).
      unfold is_u16 in *.
      assert (Ew : clipped x 1 240 = 1).
      { unfold clipped. destruct (Z.gtb_spec (x + 1) 240); lia. }
      assert (Eh : clipped y 1 320 = 1).
      { unfold clipped. destruct (Z.gtb_spec (y + 1) 320); lia. }
      rewrite Ew, Eh.
      replace (x + 1 - 1) with x by lia. replace (y + 1 - 1) with y by lia.
      rewrite !u16_small by lia. reflexivity.
  - rewrite preserves_drawPixel, preserves_fillRect. reflexivity.
Qed.

Lemma drawPixel_is_unit_fillRect_witness :
  events (drawPixel 239 319 COLOR_CYAN) display
  = events (fillRect 239 319 1 1 COLOR_CYAN) display.
Proof.
  refine (proj1 (drawPixel_is_unit_fillRect display 239 319 COLOR_CYAN _ _));
    unfold is_u16; lia.
Defined.

Lemma clipped_idempotent (origin extent limit : Z) :
  0 <= origin < limit -> 0 <= extent ->
  clipped origin (clipped origin extent limit) limit
  = clipped origin extent limit.
Proof.
  intros Ho He. unfold clipped.
  destruct (Z.gtb_spec (origin + extent) limit) as [Hgt|Hle].
  - destruct (Z.gtb_spec (origin + (limit - origin)) limit); [lia|].
    reflexivity.
  - destruct (Z.gtb_spec (origin + extent) limit); [lia|]. reflexivity.
Qed.

Lemma clipped_saturates (origin extent limit : Z) :
  limit - origin <= extent ->
  clipped origin extent limit = limit - origin.
Proof.
  intros Hge. unfold clipped.
  destruct (Z.gtb_spec (origin + extent) limit); lia.
Qed.

(** X5.  Clipping is idempotent: with 16-bit arguments and the origin on
    the screen, [fillRect(x,y,w,h,c)] is the same run as [fillRect] called
    with the already-clipped width and height. *)
Theorem fillRect_of_clipped_rectangle (this : ST7789) (x y w h color : Z) :
  is_u16 x -> is_u16 y -> is_u16 w -> is_u16 h ->
  x < 240 -> y < 320 ->
  events (fillRect x y w h color) this
  = events (fillRect x y (clipped x w 240) (clipped y h 320) color) this.
Proof.
  intros Hx Hy Hw Hh Hxlt Hylt. unfold is_u16 in *.
  pose proof (clipped_range x w 240 ltac:(lia) ltac:(lia)) as Hcw.
  pose proof (clipped_range y h 320 ltac:(lia) ltac:(lia)) as Hch.
  rewrite (fillRect_events_u16 this x y w h color)
    by (unfold is_u16; lia).
  rewrite (fillRect_events_u16 this x y (clipped x w 240) (clipped y h 320)
             color) by (unfold is_u16; lia).
  rewrite !clipped_idempotent by lia. reflexivity.
Qed.

Lemma fillRect_of_clipped_rectangle_witness :
  events (fillRect 230 310 500 500 COLOR_RED) display
  = events (fillRect 230 310 10 10 COLOR_RED) display.
Proof.
  refine (fillRect_of_clipped_rectangle display 230 310 500 500 COLOR_RED
            _ _ _ _ _ _);
    unfold is_u16; lia.
Defined.

(** X6.  Any rectangle that starts at the origin and is at least as large as
    the screen is a full-screen fill: for 16-bit [w >= 240] and [h >= 320],
    [fillRect(0,0,w,h,c)] is the same run as [fillScreen(c)]. *)
Theorem covering_fillRect_is_fillScreen (this : ST7789) (w h color : Z) :
  is_u16 w -> is_u16 h ->
  240 <= w -> 320 <= h ->
  events (fillRect 0 0 w h color) this = events (fillScreen color) this.
Proof.
  intros Hw Hh Hwide Hhigh. unfold fillScreen.
  change SCREEN_WIDTH with 240. change SCREEN_HEIGHT with 320.
  rewrite (fillRect_events_u16 this 0 0 w h color)
    by (unfold is_u16 in *; lia).
  rewrite (fillRect_events_u16 this 0 0 240 320 color)
    by (unfold is_u16; lia).
  rewrite (clipped_saturates 0 w 240), (clipped_saturates 0 h 320) by lia.
  reflexivity.
Qed.

Lemma covering_fillRect_is_fillScreen_witness :
  events (fillRect 0 0 65535 65535 COLOR_BLACK) display
  = events (fillScreen COLOR_BLACK) display.
Proof.
  refine (covering_fillRect_is_fillScreen display 65535 65535 COLOR_BLACK
            _ _ _ _);
    unfold is_u16; lia.
Defined.

(** X7.  A non-empty rectangle with its origin on the screen is drawn into
    a window that lies on the screen and whose area is the number of pixels
    streamed: the end coordinates do not wrap, [x <= x1 <= 239] and
    [y <= y1 <= 319], and exactly [(x1-x+1) * (y1-y+1)] pixel writes
    follow. *)
Theorem fillRect_window_matches_stream (this : ST7789) (x y w h color : Z) :
  is_u16 x -> is_u16 y -> is_u16 w -> is_u16 h ->
  x < 240 -> y < 320 ->
  1 <= w -> 1 <= h ->
  let x1 := x + clipped x w 240 - 1 in
  let y1 := y + clipped y h 320 - 1 in
  x <= x1 <= 239
  /\ y <= y1 <= 319
  /\ events (fillRect x y w h color) this
     = events (setWindow x y x1 y1) this
       ++ pixel_stream this [u8 (Z.shiftr color 8); u8 (Z.land color 0xFF)]
            (Z.to_nat ((x1 - x + 1) * (y1 - y + 1)))
  /\ (1 <= Z.of_nat (pixel_writes (events (fillRect x y w h color) this))
      <= 76800).
Proof.
  intros Hx Hy Hw Hh Hxlt Hylt Hw1 Hh1 x1 y1. unfold is_u16 in *.
  pose proof (clipped_range x w 240 ltac:(lia) ltac:(lia)) as Hcw.
  pose proof (clipped_range y h 320 ltac:(lia) ltac:(lia)) as Hch.
  assert (Hcw1 : 1 <= clipped x w 240).
  { unfold clipped. destruct (Z.gtb_spec (x + w) 240); lia. }
  assert (Hch1 : 1 <= clipped y h 320).
  { unfold clipped. destruct (Z.gtb_spec (y + h) 320); lia. }
  assert (Htrace :
    events (fillRect x y w h color) this
    = events (setWindow x y x1 y1) this
      ++ pixel_stream this [u8 (Z.shiftr color 8); u8 (Z.land color 0xFF)]
           (Z.to_nat ((x1 - x + 1) * (y1 - y + 1)))).
  { rewrite (fillRect_events_u16 this x y w h color)
      by (unfold is_u16; lia).
    fold x1 y1. rewrite !u16_small by (subst x1 y1; lia).
    replace ((x1 - x + 1) * (y1 - y + 1))
      with (clipped x w 240 * clipped y h 320) by (subst x1 y1; ring).
    reflexivity. }
  repeat match goal with |- _ /\ _ => split end; try (subst x1 y1; lia).
  - exact Htrace.
  - rewrite Htrace, pixel_writes_app, pixel_writes_setWindow,
      pixel_writes_stream.
    simpl. rewrite Z2Nat.id by (subst x1 y1; nia). subst x1 y1. nia.
  - rewrite Htrace, pixel_writes_app, pixel_writes_setWindow,
      pixel_writes_stream.
    simpl. rewrite Z2Nat.id by (subst x1 y1; nia). subst x1 y1. nia.
Qed.

Lemma fillRect_window_matches_stream_witness :
  events (fillRect 100 200 50 300 COLOR_GREEN) display
  = events (setWindow 100 200 149 319) display
    ++ pixel_stream display [0x07; 0xE0] (Z.to_nat 6000).
Proof.
  destruct (fillRect_window_matches_stream display 100 200 50 300 COLOR_GREEN)
    as (_ & _ & Htrace & _);
    try (unfold is_u16; lia).
  exact Htrace.
Defined.

(** X8.  Bus cost.  With 16-bit arguments and the origin on the screen,
    [fillRect] hands 11 bytes of window addressing plus two bytes per
    clipped pixel to the SPI peripheral; [drawPixel] on the screen hands
    over 13 bytes, and 0 when off the screen. *)
Theorem bytes_on_the_bus (this : ST7789) (x y color : Z) :
  (x < 240 -> y < 320 ->
   forall w h,
     is_u16 x -> is_u16 y -> is_u16 w -> is_u16 h ->
     Z.of_nat (bytes_sent (events (fillRect x y w h color) this))
     = 11 + 2 * (clipped x w 240 * clipped y h 320))
  /\ (x < 240 -> y < 320 ->
      bytes_sent (events (drawPixel x y color) this) = 13%nat)
  /\ (x >= 240 \/ y >= 320 ->
      bytes_sent (events (drawPixel x y color) this) = 0%nat).
Proof.
  split; [|split].
  - intros Hxlt Hylt w h Hx Hy Hw Hh.
    rewrite (fillRect_events_u16 this x y w h color Hx Hy Hw Hh Hxlt Hylt).
    rewrite bytes_sent_app, bytes_sent_setWindow, bytes_sent_stream.
    unfold is_u16 in *.
    pose proof (clipped_range x w 240 ltac:(lia) ltac:(lia)) as Hcw.
    pose proof (clipped_range y h 320 ltac:(lia) ltac:(lia)) as Hch.
    rewrite Nat2Z.inj_add, Nat2Z.inj_mul, Z2Nat.id by nia. reflexivity.
  - intros Hxlt Hylt.
    rewrite (drawPixel_events this x y color Hxlt Hylt). reflexivity.
  - intros Hout. apply out_of_bounds_guard in Hout.
    rewrite (drawPixel_silent this x y color Hout). reflexivity.
Qed.

Lemma bytes_on_the_bus_witness :
  Z.of_nat (bytes_sent (events (fillRect 0 0 240 320 COLOR_WHITE) display))
  = 153611.
Proof.
  refine (proj1 (bytes_on_the_bus display 0 0 COLOR_WHITE) _ _ 240 320
            _ _ _ _);
    unfold is_u16; lia.
Defined.

Lemma decode_pixels_repeat (hi lo : Z) (n : nat) :
  decode_pixels (repeat [hi; lo] n) = repeat (be16 hi lo) n.
Proof. induction n as [|n IH]; simpl; [|rewrite IH]; reflexivity. Qed.

Lemma decode_window_setWindow (this : ST7789) (x0 y0 x1 y1 : Z)
    (rest : list event) :
  is_u16 x0 -> is_u16 y0 -> is_u16 x1 -> is_u16 y1 ->
  decode_window (spi_payloads (events (setWindow x0 y0 x1 y1) this ++ rest))
  = Some (x0, y0, x1, y1).
Proof.
  intros Hx0 Hy0 Hx1 Hy1. rewrite setWindow_events.
  cbn [command_frame data_frame frame app spi_payloads decode_window].
  change ((0x2A =? ST7789_CASET) && (0x2B =? ST7789_RASET)
          && (0x2C =? ST7789_RAMWR)) with true. cbv iota.
  rewrite !be16_bytes by assumption. reflexivity.
Qed.

(** X9.  Round trip of the big-endian encoding.  Reading the eleven
    one-byte transfers of [setWindow] back as big-endian pairs gives the
    four 16-bit arguments; for a [fillRect] of a non-empty rectangle on the
    screen the panel therefore receives the window
    [(x, y) - (x+w-1, y+h-1)] of the clipped rectangle, followed by
    [w*h] pixels that each read back as the 16-bit colour. *)
Theorem window_and_pixels_read_back (this : ST7789) (x y w h color : Z) :
  is_u16 x -> is_u16 y -> is_u16 w -> is_u16 h -> is_u16 color ->
  (forall x1 y1,
      is_u16 x1 -> is_u16 y1 ->
      decode_window (spi_payloads (events (setWindow x y x1 y1) this))
      = Some (x, y, x1, y1))
  /\ (x < 240 -> y < 320 -> 1 <= w -> 1 <= h ->
      let tr := events (fillRect x y w h color) this in
      decode_window (spi_payloads tr)
      = Some (x, y, x + clipped x w 240 - 1, y + clipped y h 320 - 1)
      /\ decode_pixels (skipn 11 (spi_payloads tr))
         = repeat color (Z.to_nat (clipped x w 240 * clipped y h 320)))
  /\ (x < 240 -> y < 320 ->
      let tr := events (drawPixel x y color) this in
      decode_window (spi_payloads tr) = Some (x, y, x, y)
      /\ decode_pixels (skipn 11 (spi_payloads tr)) = [color]).
Proof.
  intros Hx Hy Hw Hh Hc. split; [|split].
  - intros x1 y1 Hx1 Hy1. rewrite <- (app_nil_r (events _ _)).
    apply decode_window_setWindow; assumption.
  - intros Hxlt Hylt Hw1 Hh1 tr. subst tr.
    rewrite (fillRect_events_u16 this x y w h color Hx Hy Hw Hh Hxlt Hylt).
    assert (Hcw : 1 <= clipped x w 240 <= 240 - x).
    { unfold is_u16, clipped in *.
      destruct (Z.gtb_spec (x + w) 240); lia. }
    assert (Hch : 1 <= clipped y h 320 <= 320 - y).
    { unfold is_u16, clipped in *.
      destruct (Z.gtb_spec (y + h) 320); lia. }
    unfold is_u16 in Hx, Hy.
    rewrite !u16_small by lia.
    split.
    + apply decode_window_setWindow; unfold is_u16; lia.
    + rewrite spi_payloads_app, spi_payloads_stream.
      rewrite setWindow_events.
      cbn [command_frame data_frame frame app spi_payloads skipn].
      rewrite decode_pixels_repeat, (be16_bytes color Hc). reflexivity.
  - intros Hxlt Hylt tr. subst tr.
    rewrite (drawPixel_events this x y color Hxlt Hylt). split.
    + apply decode_window_setWindow; assumption.
    + rewrite setWindow_events.
      cbn [command_frame data_frame frame app spi_payloads skipn
             decode_pixels].
      rewrite (be16_bytes color Hc). reflexivity.
Qed.

Lemma window_and_pixels_read_back_witness :
  decode_window
    (spi_payloads (events (fillRect 200 300 100 50 COLOR_ORANGE) display))
  = Some (200, 300, 239, 319)
  /\ decode_pixels
       (skipn 11
          (spi_payloads (events (fillRect 200 300 100 50 COLOR_ORANGE)
                           display)))
     = repeat COLOR_ORANGE 800.
Proof.
  refine (proj1 (proj2 (window_and_pixels_read_back display 200 300 100 50
                          COLOR_ORANGE _ _ _ _ _)) _ _ _ _);
    unfold is_u16, COLOR_ORANGE; lia.
Defined.

Lemma wire_view_writes (dc : Z) (spi : spi_inst_t) (buf : list Z) (n : nat)
    (rest : list event) :
  wire_view dc true (repeat (Ev_spi_write_blocking spi buf) n ++ rest)
  = repeat (Wire_data buf) n ++ wire_view dc true rest.
Proof. induction n as [|n IH]; simpl; [|rewrite IH]; reflexivity. Qed.

Lemma wire_view_stream (this : ST7789) (level : bool) (buf : list Z)
    (n : nat) :
  distinct_control_pins this ->
  wire_view (_dc this) level (pixel_stream this buf n)
  = repeat (Wire_data buf) n.
Proof.
  unfold distinct_control_pins. intros Hpins. unfold pixel_stream. simpl.
  rewrite Z.eqb_refl.
  destruct (Z.eqb_spec (_cs this) (_dc this)) as [E|_]; [contradiction|].
  rewrite wire_view_writes. simpl. apply app_nil_r.
Qed.

Lemma wire_view_setWindow (this : ST7789) (level : bool) (x0 y0 x1 y1 : Z)
    (rest : list event) :
  distinct_control_pins this ->
  wire_view (_dc this) level (events (setWindow x0 y0 x1 y1) this ++ rest)
  = [ Wire_command [ST7789_CASET];
      Wire_data [u8 (Z.shiftr x0 8)]; Wire_data [u8 (Z.land x0 0xFF)];
      Wire_data [u8 (Z.shiftr x1 8)]; Wire_data [u8 (Z.land x1 0xFF)];
      Wire_command [ST7789_RASET];
      Wire_data [u8 (Z.shiftr y0 8)]; Wire_data [u8 (Z.land y0 0xFF)];
      Wire_data [u8 (Z.shiftr y1 8)]; Wire_data [u8 (Z.land y1 0xFF)];
      Wire_command [ST7789_RAMWR] ]
    ++ wire_view (_dc this) false rest.
Proof.
  intros Hpins. rewrite setWindow_events. rewrite <- !app_assoc.
  repeat first [ rewrite wire_view_command by exact Hpins
               | rewrite wire_view_data by exact Hpins ].
  reflexivity.
Qed.

(** X10.  What the controller sees of a drawing call.  When chip-select and
    data/command are different pins, an on-screen [fillRect] with 16-bit
    arguments reaches the controller as the three commands CASET, RASET and
    RAMWR with their address bytes as data, followed by nothing but data:
    one two-byte item per pixel of the clipped rectangle.  No pixel byte is
    sent in command mode, and no command follows RAMWR. *)
Theorem fillRect_as_seen_by_controller
    (this : ST7789) (x y w h color : Z) (level : bool) :
  distinct_control_pins this ->
  is_u16 x -> is_u16 y -> is_u16 w -> is_u16 h ->
  x < 240 -> y < 320 ->
  let x1 := u16 (x + clipped x w 240 - 1) in
  let y1 := u16 (y + clipped y h 320 - 1) in
  wire_view (_dc this) level (events (fillRect x y w h color) this)
  = [ Wire_command [ST7789_CASET];
      Wire_data [u8 (Z.shiftr x 8)]; Wire_data [u8 (Z.land x 0xFF)];
      Wire_data [u8 (Z.shiftr x1 8)]; Wire_data [u8 (Z.land x1 0xFF)];
      Wire_command [ST7789_RASET];
      Wire_data [u8 (Z.shiftr y 8)]; Wire_data [u8 (Z.land y 0xFF)];
      Wire_data [u8 (Z.shiftr y1 8)]; Wire_data [u8 (Z.land y1 0xFF)];
      Wire_command [ST7789_RAMWR] ]
    ++ repeat (Wire_data [u8 (Z.shiftr color 8); u8 (Z.land color 0xFF)])
         (Z.to_nat (clipped x w 240 * clipped y h 320)).
Proof.
  intros Hpins Hx Hy Hw Hh Hxlt Hylt x1 y1.
  rewrite (fillRect_events_u16 this x y w h color Hx Hy Hw Hh Hxlt Hylt).
  fold x1 y1.
  rewrite (wire_view_setWindow this level _ _ _ _ _ Hpins).
  rewrite (wire_view_stream this false _ _ Hpins). reflexivity.
Qed.

Lemma fillRect_as_seen_by_controller_witness :
  wire_view PIN_DC true (events (fillRect 0 0 2 2 COLOR_RED) display)
  = [ Wire_command [0x2A];
      Wire_data [0x00]; Wire_data [0x00]; Wire_data [0x00]; Wire_data [0x01];
      Wire_command [0x2B];
      Wire_data [0x00]; Wire_data [0x00]; Wire_data [0x00]; Wire_data [0x01];
      Wire_command [0x2C];
      Wire_data [0xF8; 0x00]; Wire_data [0xF8; 0x00];
      Wire_data [0xF8; 0x00]; Wire_data [0xF8; 0x00] ].
Proof.
  refine (fillRect_as_seen_by_controller display 0 0 2 2 COLOR_RED true
            _ _ _ _ _ _ _);
    unfold is_u16, distinct_control_pins, display, PIN_CS, PIN_DC;
    simpl; lia.
Defined.

(** ** The demo program *)

Lemma sdk_calls_app (tr1 tr2 : list main_event) :
  sdk_calls (tr1 ++ tr2) = sdk_calls tr1 ++ sdk_calls tr2.
Proof.
  induction tr1 as [|e tr1 IH]; [reflexivity|].
  destruct e; simpl; rewrite IH; reflexivity.
Qed.

Lemma sdk_calls_map (tr : list event) : sdk_calls (map Ev_sdk tr) = tr.
Proof. induction tr as [|e tr IH]; simpl; [|rewrite IH]; reflexivity. Qed.

Lemma displayed_colors_app (tr1 tr2 : list main_event) :
  displayed_colors (tr1 ++ tr2)
  = displayed_colors tr1 ++ displayed_colors tr2.
Proof.
  induction tr1 as [|e tr1 IH]; [reflexivity|].
  destruct e as [|format args|e]; simpl; try exact IH.
  destruct args as [|a [|b args]]; try exact IH.
  destruct (String.eqb _ _); simpl; rewrite IH; reflexivity.
Qed.

Lemma displayed_colors_map (tr : list event) :
  displayed_colors (map Ev_sdk tr) = [].
Proof. induction tr as [|e tr IH]; simpl; [reflexivity | exact IH]. Qed.

Lemma numColors_eq : numColors = 8.
Proof. reflexivity. Qed.

Lemma main_loop_body_index (d : ST7789) (i : Z) :
  0 <= i < 8 ->
  fst (fst (main_loop_body d i)) = (i + 1) mod 8.
Proof.
  intros Hi. unfold main_loop_body. cbn [fst]. rewrite numColors_eq.
  apply Z.rem_mod_nonneg; lia.
Qed.

Lemma main_loop_body_object (d : ST7789) (i : Z) :
  snd (fst (main_loop_body d i)) = d.
Proof.
  unfold main_loop_body. cbn [fst snd].
  exact (preserves_fillScreen (nth (Z.to_nat i) colors 0) d).
Qed.

Lemma main_loop_body_sdk (d : ST7789) (i : Z) :
  sdk_calls (snd (main_loop_body d i))
  = events (fillScreen (nth (Z.to_nat i) colors 0)) d ++ [Ev_sleep_ms 1000].
Proof.
  unfold main_loop_body. cbn [snd].
  rewrite sdk_calls_app, sdk_calls_map. reflexivity.
Qed.

Lemma main_loop_body_colors (d : ST7789) (i : Z) :
  displayed_colors (snd (main_loop_body d i)) = [nth (Z.to_nat i) colors 0].
Proof.
  unfold main_loop_body. cbn [snd].
  rewrite displayed_colors_app, displayed_colors_map. reflexivity.
Qed.

Lemma main_loop_index (n : nat) :
  forall d i,
    0 <= i < 8 ->
    fst (fst (main_loop n d i)) = (i + Z.of_nat n) mod 8.
Proof.
  induction n as [|n IH]; intros d i Hi.
  - simpl. rewrite Z.add_0_r, Z.mod_small by lia. reflexivity.
  - cbn [main_loop fst snd].
    rewrite main_loop_body_index by lia.
    rewrite IH by (apply Z.mod_pos_bound; lia).
    rewrite Zplus_mod_idemp_l. f_equal. lia.
Qed.

Lemma main_loop_object (n : nat) :
  forall d i, snd (fst (main_loop n d i)) = d.
Proof.
  induction n as [|n IH]; intros d i; [reflexivity|].
  cbn [main_loop fst snd]. rewrite IH. apply main_loop_body_object.
Qed.

Lemma main_loop_colors (n : nat) :
  forall d i,
    0 <= i < 8 ->
    displayed_colors (snd (main_loop n d i))
    = map (fun k => nth (Z.to_nat ((i + Z.of_nat k) mod 8)) colors 0)
        (seq 0 n).
Proof.
  induction n as [|n IH]; intros d i Hi; [reflexivity|].
  cbn [main_loop fst snd].
  rewrite displayed_colors_app, main_loop_body_colors.
  rewrite main_loop_body_index by lia.
  rewrite IH by (apply Z.mod_pos_bound; lia).
  cbn [seq map app]. f_equal.
  - rewrite Z.add_0_r, Z.mod_small by lia. reflexivity.
  - rewrite <- seq_shift, map_map. apply map_ext. intros k.
    rewrite Zplus_mod_idemp_l. do 3 f_equal. lia.
Qed.

Lemma main_loop_sdk (n : nat) :
  forall d i,
    sdk_calls (snd (main_loop n d i))
    = concat
        (map (fun color => events (fillScreen color) d ++ [Ev_sleep_ms 1000])
           (displayed_colors (snd (main_loop n d i)))).
Proof.
  induction n as [|n IH]; intros d i; [reflexivity|].
  cbn [main_loop fst snd].
  rewrite sdk_calls_app, displayed_colors_app, map_app, concat_app.
  rewrite main_loop_body_sdk, main_loop_body_colors.
  rewrite IH, main_loop_body_object. cbn [map concat].
  rewrite app_nil_r. reflexivity.
Qed.

Lemma main_startup_object : fst main_startup = display.
Proof.
  unfold main_startup. cbv zeta. fold display. cbn [fst].
  apply (preserves_init SPI_BAUDRATE).
Qed.

Lemma main_startup_sdk :
  sdk_calls (snd main_startup) = events (init SPI_BAUDRATE) display.
Proof.
  unfold main_startup. cbv zeta. fold display. cbn [snd].
  rewrite !sdk_calls_app, sdk_calls_map. cbn [sdk_calls app].
  apply app_nil_r.
Qed.

Lemma main_startup_colors : displayed_colors (snd main_startup) = [].
Proof.
  unfold main_startup. cbv zeta. fold display. cbn [snd].
  rewrite !displayed_colors_app, displayed_colors_map. reflexivity.
Qed.

Lemma pixel_writes_fillScreen (d : ST7789) (color : Z) :
  Z.of_nat (pixel_writes (events (fillScreen color) d)) = 76800.
Proof.
  unfold fillScreen. change SCREEN_WIDTH with 240.
  change SCREEN_HEIGHT with 320.
  rewrite (fillRect_events_u16 d 0 0 240 320 color)
    by (unfold is_u16; lia).
  rewrite pixel_writes_app, pixel_writes_setWindow, pixel_writes_stream.
  change (clipped 0 240 240 * clipped 0 320 320) with 76800.
  rewrite Nat.add_0_l, Z2Nat.id by lia. reflexivity.
Qed.

Lemma pixel_writes_turns (d : ST7789) (cols : list Z) :
  Z.of_nat
    (pixel_writes
       (concat
          (map (fun color => events (fillScreen color) d ++ [Ev_sleep_ms 1000])
             cols)))
  = Z.of_nat (length cols) * 76800.
Proof.
  induction cols as [|c cols IH]; [reflexivity|].
  cbn [map concat length]. rewrite !pixel_writes_app.
  rewrite !Nat2Z.inj_add, IH, pixel_writes_fillScreen.
  cbn [pixel_writes]. lia.
Qed.

Lemma cs_framed_turns (d : ST7789) (cols : list Z) :
  cs_framed (_cs d) true
    (concat
       (map (fun color => events (fillScreen color) d ++ [Ev_sleep_ms 1000])
          cols))
  = true.
Proof.
  induction cols as [|c cols IH]; [reflexivity|].
  cbn [map concat]. rewrite <- app_assoc.
  unfold fillScreen at 1. rewrite cs_framed_fillRect. exact IH.
Qed.

Lemma main_sdk (n : nat) :
  sdk_calls (snd (main n))
  = events (init SPI_BAUDRATE) display
    ++ concat
         (map (fun color =>
                 events (fillScreen color) display ++ [Ev_sleep_ms 1000])
            (displayed_colors (snd (main n)))).
Proof.
  unfold main. cbn [snd].
  rewrite sdk_calls_app, displayed_colors_app, main_startup_sdk,
    main_startup_colors, main_loop_sdk, main_startup_object.
  reflexivity.
Qed.


Lemma main_colors (n : nat) :
  displayed_colors (snd (main n))
  = map (fun k => nth (Z.to_nat (Z.of_nat k mod 8)) colors 0) (seq 0 n).
Proof.
  unfold main. cbn [snd].
  rewrite displayed_colors_app, main_startup_colors.
  rewrite main_loop_colors by lia. reflexivity.
Qed.

(** X11.  The colour index of [main] never leaves the array: after [n]
    turns of the loop it is [n mod 8], so every read [colors[colorIndex]] is
    within the eight elements, and the display object is still the one that
    was constructed. *)
Theorem main_color_index_stays_in_bounds (n : nat) :
  fst (fst (main n)) = Z.of_nat n mod 8
  /\ 0 <= fst (fst (main n)) < numColors
  /\ snd (fst (main n)) = display.
Proof.
  assert (Hidx : fst (fst (main n)) = Z.of_nat n mod 8).
  { unfold main. cbn [fst snd]. rewrite main_loop_index by lia.
    reflexivity. }
  split; [exact Hidx|]. split.
  - rewrite Hidx, numColors_eq. apply Z.mod_pos_bound. lia.
  - unfold main. cbn [fst snd].
    rewrite main_loop_object. apply main_startup_object.
Qed.


(** X13.  The SDK calls of [main]: [init] with 32 MHz runs once, before
    anything is drawn, and every turn of the loop is one full-screen fill in
    the turn's colour followed by a sleep of 1000 ms. *)
Theorem main_sdk_calls (n : nat) :
  sdk_calls (snd (main n))
  = events (init 32000000) display
    ++ concat
         (map (fun k =>
                 events
                   (fillScreen (nth (Z.to_nat (Z.of_nat k mod 8)) colors 0))
                   display
                 ++ [Ev_sleep_ms 1000])
            (seq 0 n)).
Proof.
  rewrite main_sdk, main_colors, map_map. reflexivity.
Qed.

(** X14.  The whole run of [main] keeps the chip-select discipline: from
    any initial level of the chip-select pin, every SPI write of the first
    [n] turns is made with chip-select low, and chip-select is high
    afterwards. *)
Theorem main_keeps_chip_select_discipline (n : nat) (level : bool) :
  cs_framed PIN_CS level (sdk_calls (snd (main n))) = true.
Proof.
  rewrite main_sdk. change PIN_CS with (_cs display).
  rewrite cs_framed_init. apply cs_framed_turns.
Qed.

(** X15.  After [n] turns of its loop [main] has made [n * 76800] pixel
    writes: each turn repaints all 240 x 320 pixels, and [init] writes
    none. *)
Theorem main_pixel_writes (n : nat) :
  Z.of_nat (pixel_writes (sdk_calls (snd (main n)))) = Z.of_nat n * 76800.
Proof.
  rewrite main_sdk, pixel_writes_app, Nat2Z.inj_add, pixel_writes_turns.
  rewrite main_colors, length_map, length_seq.
  change (pixel_writes (events (init SPI_BAUDRATE) display)) with 0%nat.
  lia.
Qed.

